(** * Investigation modules of insightsnexus: hashDetect, dnsTransfer, domainreport

    A shallow embedding of the three scripts under [saves/examples/] and of
    the part of the Python runtime they call.  A Python [str] is a [string];
    each [ascii] stands for the code point of the same number, so the
    embedding covers the targets whose code points are below 256 (Latin-1).
    Network probes, the external [dig] process and the clock are inputs of
    the run: every script is a function of its target and of what the
    outside world answered.  Its result is the text it writes to the standard
    output; [Reader] is the other end, which reads that text back. *)

From Stdlib Require Import ZArith QArith NArith Ascii String DecimalString DecimalZ Lia.
From stdpp Require Import base option list gmap strings.

Set Warnings "-register-all".
Local Open Scope string_scope.
#[local] Arguments String.append : simpl nomatch.

(** ** The Python runtime used by the scripts *)

Module Py.

(** [ord(c)]. *)
Definition ord (c : ascii) : N := N_of_ascii c.

(** [c.isspace()] and the class [\s] of [re] on a [str] pattern; below 256
    these are U+0009..U+000D, U+001C..U+0020, U+0085 and U+00A0. *)
Definition isspace (c : ascii) : bool :=
  let n := ord c in
  ((9 <=? n) && (n <=? 13) || (28 <=? n) && (n <=? 32) || (n =? 133) || (n =? 160))%N.

(** One character of [str.lower()]: A..Z and the Latin-1 capitals
    U+00C0..U+00DE (the multiplication sign U+00D7 apart) move up by 32. *)
Definition lower_char (c : ascii) : ascii :=
  let n := ord c in
  if ((65 <=? n) && (n <=? 90) || (192 <=? n) && (n <=? 222) && negb (n =? 215))%N
  then ascii_of_N (n + 32) else c.

(** [s.lower()]. *)
Fixpoint lower (s : string) : string :=
  match s with
  | EmptyString => EmptyString
  | String c s' => String (lower_char c) (lower s')
  end.

(** [s.lstrip()]. *)
Fixpoint lstrip (s : string) : string :=
  match s with
  | EmptyString => EmptyString
  | String c s' => if isspace c then lstrip s' else s
  end.

(** [s.rstrip()]: a character is dropped when it is white space and
    nothing but white space follows. *)
Fixpoint rstrip (s : string) : string :=
  match s with
  | EmptyString => EmptyString
  | String c s' =>
      match rstrip s' with
      | EmptyString => if isspace c then EmptyString else String c EmptyString
      | r => String c r
      end
  end.

(** [s.strip()]. *)
Definition strip (s : string) : string := rstrip (lstrip s).

(** [str(n)] for an [int]. *)
Definition str_int (z : Z) : string := NilEmpty.string_of_int (Z.to_int z).

(** [int(x)] for a [float]: every finite float is a rational, and [int]
    truncates towards zero. *)
Definition int_of_float (x : Q) : Z := Z.quot (Qnum x) (Z.pos (Qden x)).

(** [ch * n]. *)
Fixpoint repeat_char (c : ascii) (n : nat) : string :=
  match n with
  | O => EmptyString
  | S n' => String c (repeat_char c n')
  end.

(** [sep.join(parts)]. *)
Fixpoint join (sep : string) (parts : list string) : string :=
  match parts with
  | [] => EmptyString
  | [p] => p
  | p :: ps => p ++ sep ++ join sep ps
  end.

(** [bool(s)] for a [str]. *)
Definition truthy_str (s : string) : bool :=
  match s with EmptyString => false | String _ _ => true end.

(** An exception caught by [except Exception as e] is kept as [str(e)];
    a library call either raises or returns. *)
Inductive outcome (A : Type) : Type :=
| Raised (message : string)
| Returned (value : A).
Arguments Raised {A} message.
Arguments Returned {A} value.

(** The line feed, written [\n] in the scripts, and the double quote. *)
Definition LF : ascii := "010".
Definition DQUOTE : ascii := "034".
Definition nl : string := String LF EmptyString.

(** [print(x)] on an empty standard output: the text and a line feed. *)
Definition print (x : string) : string := x ++ nl.

(** The number of lines of an output: its line feeds. *)
Fixpoint count_lines (out : string) : nat :=
  match out with
  | EmptyString => O
  | String c out' => if Ascii.eqb c LF then S (count_lines out') else count_lines out'
  end.

(** [c in s] for a character. *)
Fixpoint has_char (c : ascii) (s : string) : bool :=
  match s with
  | EmptyString => false
  | String a s' => Ascii.eqb a c || has_char c s'
  end.

(** [s.zfill(width)] for a string without sign. *)
Definition zfill (width : nat) (s : string) : string :=
  repeat_char "0" (width - String.length s) ++ s.

(** One lower-case hexadecimal digit, and [format(n, '02x')]. *)
Definition hex_digit (n : N) : ascii :=
  if (n <? 10)%N then ascii_of_N (48 + n) else ascii_of_N (87 + n).
Definition hex2 (n : N) : string :=
  String (hex_digit (n / 16)) (String (hex_digit (n mod 16)) EmptyString).

(** *** Values other than [str] that the scripts meet

    [SSLSocket.getpeercert()] returns a dict whose values are strings and
    nested tuples of strings. *)
Inductive value : Type :=
| Str (s : string)
| Tuple (items : list value).

(** [bool(v)]. *)
Definition truthy (v : value) : bool :=
  match v with
  | Str s => truthy_str s
  | Tuple [] => false
  | Tuple (_ :: _) => true
  end.

(** [for x in v]: the items of a tuple, the characters of a string. *)
Fixpoint chars (s : string) : list value :=
  match s with
  | EmptyString => []
  | String c s' => Str (String c EmptyString) :: chars s'
  end.
Definition iter (v : value) : list value :=
  match v with
  | Str s => chars s
  | Tuple items => items
  end.

(** [repr] of one character of a string quoted with [quote]. *)
Definition repr_char (quote c : ascii) : string :=
  let n := ord c in
  if Ascii.eqb c quote || Ascii.eqb c "\" then String "\" (String c EmptyString)
  else if (n =? 9)%N then "\t"
  else if (n =? 10)%N then "\n"
  else if (n =? 13)%N then "\r"
  else if ((n <? 32) || (n =? 127))%N then "\x" ++ hex2 n
  else if (n <? 127)%N then String c EmptyString
  else if ((n <=? 160) || (n =? 173))%N then "\x" ++ hex2 n
  else String c EmptyString.

Fixpoint repr_chars (quote : ascii) (s : string) : string :=
  match s with
  | EmptyString => EmptyString
  | String c s' => repr_char quote c ++ repr_chars quote s'
  end.

(** [repr(s)] for a [str]: single quotes, unless the string has a single
    quote and no double quote. *)
Definition repr_str (s : string) : string :=
  let quote := if has_char "'" s && negb (has_char DQUOTE s) then DQUOTE else "'"%char in
  String quote (repr_chars quote s) ++ String quote EmptyString.

(** [repr(v)]. *)
Fixpoint repr (v : value) : string :=
  match v with
  | Str s => repr_str s
  | Tuple items =>
      match List.map repr items with
      | [r] => "(" ++ r ++ ",)"
      | rs => "(" ++ join ", " rs ++ ")"
      end
  end.

(** [str(v)], as an f-string formats it. *)
Definition str (v : value) : string :=
  match v with
  | Str s => s
  | Tuple _ => repr v
  end.

(** *** [json.dumps] with its default arguments *)

(** What the scripts serialize: strings, lists and dicts (in insertion order). *)
Inductive json : Type :=
| JStr (s : string)
| JArr (items : list json)
| JObj (members : list (string * json)).

(** One character of a JSON string under [ensure_ascii=True]. *)
Definition escape_char (c : ascii) : string :=
  let n := ord c in
  if Ascii.eqb c "\" then "\\"
  else if Ascii.eqb c DQUOTE then String "\" (String DQUOTE EmptyString)
  else if (n =? 8)%N then "\b"
  else if (n =? 12)%N then "\f"
  else if (n =? 10)%N then "\n"
  else if (n =? 13)%N then "\r"
  else if (n =? 9)%N then "\t"
  else if ((32 <=? n) && (n <=? 126))%N then String c EmptyString
  else "\u00" ++ hex2 n.

Fixpoint escape (s : string) : string :=
  match s with
  | EmptyString => EmptyString
  | String c s' => escape_char c ++ escape s'
  end.

(** [json.dumps(s)] for a [str]. *)
Definition dumps_str (s : string) : string :=
  String DQUOTE (escape s) ++ String DQUOTE EmptyString.

(** [json.dumps(v)]: items are separated by [", "], keys by [": "]. *)
Fixpoint dumps (v : json) : string :=
  match v with
  | JStr s => dumps_str s
  | JArr items => "[" ++ join ", " (List.map dumps items) ++ "]"
  | JObj members =>
      "{" ++ join ", " (List.map (fun kv => dumps_str (fst kv) ++ ": " ++ dumps (snd kv)) members) ++ "}"
  end.

(** The text of one member of a dict, as [dumps] writes it. *)
Definition member_text (kv : string * json) : string :=
  dumps_str (fst kv) ++ ": " ++ dumps (snd kv).

(** *** The result a module prints *)

(** [{"name": ..., "content": ..., "type": ...}]. *)
Record FileArtifact : Type := {
  name : string;
  content : string;
  type : string
}.

(** [{"nodes": [...], "files": [...]}]. *)
Record ResultEnvelope : Type := {
  nodes : list string;
  files : list FileArtifact
}.

(** The dict literals of the scripts, keys in the order they are written. *)
Definition json_of_file (f : FileArtifact) : json :=
  JObj [("name", JStr (name f)); ("content", JStr (content f)); ("type", JStr (type f))].
Definition json_of_envelope (e : ResultEnvelope) : json :=
  JObj [("nodes", JArr (List.map JStr (nodes e)));
        ("files", JArr (List.map json_of_file (files e)))].

(** [print(json.dumps(result_data))]. *)
Definition print_result (result_data : ResultEnvelope) : string :=
  print (dumps (json_of_envelope result_data)).

(** [s.startswith(prefix)] and [needle in s]. *)
Fixpoint startswith (prefix s : string) : bool :=
  match prefix with
  | EmptyString => true
  | String a prefix' =>
      match s with
      | EmptyString => false
      | String b s' => Ascii.eqb a b && startswith prefix' s'
      end
  end.
Fixpoint contains (needle s : string) : bool :=
  startswith needle s ||
  match s with
  | EmptyString => false
  | String _ s' => contains needle s'
  end.

End Py.

(** ** The reader of a module's output

    The invoking tool is not part of the repository; the output schema of
    the modules says what it reads: one line of JSON holding
    [{"nodes": [<string>, ...], "files": [{"name", "content", "type"}, ...]}].
    This is [json.loads] for the JSON that has strings, arrays and objects,
    followed by the check of that shape. *)

Module Reader.

(** JSON white space. *)
Definition is_ws (c : ascii) : bool :=
  let n := Py.ord c in ((n =? 32) || (n =? 9) || (n =? 10) || (n =? 13))%N.

Fixpoint skip_ws (s : string) : string :=
  match s with
  | EmptyString => EmptyString
  | String c s' => if is_ws c then skip_ws s' else s
  end.

(** The value of a hexadecimal digit. *)
Definition hex_value (c : ascii) : option N :=
  let n := Py.ord c in
  if ((48 <=? n) && (n <=? 57))%N then Some (n - 48)%N
  else if ((97 <=? n) && (n <=? 102))%N then Some (n - 87)%N
  else if ((65 <=? n) && (n <=? 70))%N then Some (n - 55)%N
  else None.

(** The character a backslash escape of one letter stands for. *)
Definition unescape (e : ascii) : option ascii :=
  if Ascii.eqb e Py.DQUOTE then Some Py.DQUOTE
  else if Ascii.eqb e "\" then Some "\"%char
  else if Ascii.eqb e "/" then Some "/"%char
  else if Ascii.eqb e "b" then Some "008"%char
  else if Ascii.eqb e "f" then Some "012"%char
  else if Ascii.eqb e "n" then Some "010"%char
  else if Ascii.eqb e "r" then Some "013"%char
  else if Ascii.eqb e "t" then Some "009"%char
  else None.

(** The code point of [\uXXXX], when it is below 256. *)
Definition unicode_escape (h1 h2 h3 h4 : ascii) : option ascii :=
  match hex_value h1, hex_value h2, hex_value h3, hex_value h4 with
  | Some a, Some b, Some c, Some d =>
      let n := (((a * 16 + b) * 16 + c) * 16 + d)%N in
      if (n <? 256)%N then Some (ascii_of_N n) else None
  | _, _, _, _ => None
  end.

Definition push (c : ascii) (r : option (string * string)) : option (string * string) :=
  match r with
  | Some (str, rest) => Some (String c str, rest)
  | None => None
  end.

(** A string after its opening quote: its text and what follows the
    closing quote.  A raw control character is refused, as [json.loads]
    does. *)
Fixpoint scanstring (s : string) : option (string * string) :=
  match s with
  | EmptyString => None
  | String c s' =>
      if Ascii.eqb c Py.DQUOTE then Some (EmptyString, s')
      else if Ascii.eqb c "\" then
        match s' with
        | EmptyString => None
        | String e s'' =>
            if Ascii.eqb e "u" then
              match s'' with
              | String h1 (String h2 (String h3 (String h4 r))) =>
                  match unicode_escape h1 h2 h3 h4 with
                  | Some ch => push ch (scanstring r)
                  | None => None
                  end
              | _ => None
              end
            else
              match unescape e with
              | Some ch => push ch (scanstring s'')
              | None => None
              end
        end
      else if (Py.ord c <? 32)%N then None
      else push c (scanstring s')
  end.

(** A value, the items of an array after its bracket, and the members of
    an object after its brace.  [fuel] bounds the depth of the calls. *)
Fixpoint parse_value (fuel : nat) (s : string) : option (Py.json * string) :=
  match fuel with
  | O => None
  | S fuel' =>
      match s with
      | EmptyString => None
      | String c s' =>
          if Ascii.eqb c Py.DQUOTE then
            match scanstring s' with
            | Some (str, rest) => Some (Py.JStr str, rest)
            | None => None
            end
          else if Ascii.eqb c "[" then
            match skip_ws s' with
            | EmptyString => None
            | String c' rest' as s'' =>
                if Ascii.eqb c' "]" then Some (Py.JArr [], rest')
                else
                  match parse_items fuel' s'' with
                  | Some (items, rest) => Some (Py.JArr items, rest)
                  | None => None
                  end
            end
          else if Ascii.eqb c "{" then
            match skip_ws s' with
            | EmptyString => None
            | String c' rest' as s'' =>
                if Ascii.eqb c' "}" then Some (Py.JObj [], rest')
                else
                  match parse_members fuel' s'' with
                  | Some (members, rest) => Some (Py.JObj members, rest)
                  | None => None
                  end
            end
          else None
      end
  end
with parse_items (fuel : nat) (s : string) : option (list Py.json * string) :=
  match fuel with
  | O => None
  | S fuel' =>
      match parse_value fuel' s with
      | None => None
      | Some (v, rest) =>
          match skip_ws rest with
          | EmptyString => None
          | String c rest' =>
              if Ascii.eqb c "," then
                match parse_items fuel' (skip_ws rest') with
                | Some (vs, rest'') => Some (v :: vs, rest'')
                | None => None
                end
              else if Ascii.eqb c "]" then Some ([v], rest')
              else None
          end
      end
  end
with parse_members (fuel : nat) (s : string) : option (list (string * Py.json) * string) :=
  match fuel with
  | O => None
  | S fuel' =>
      match s with
      | EmptyString => None
      | String q s' =>
          if Ascii.eqb q Py.DQUOTE then
            match scanstring s' with
            | None => None
            | Some (key, rest) =>
                match skip_ws rest with
                | EmptyString => None
                | String colon rest1 =>
                    if Ascii.eqb colon ":" then
                      match parse_value fuel' (skip_ws rest1) with
                      | None => None
                      | Some (v, rest2) =>
                          match skip_ws rest2 with
                          | EmptyString => None
                          | String c rest3 =>
                              if Ascii.eqb c "," then
                                match parse_members fuel' (skip_ws rest3) with
                                | Some (ms, rest4) => Some ((key, v) :: ms, rest4)
                                | None => None
                                end
                              else if Ascii.eqb c "}" then Some ([(key, v)], rest3)
                              else None
                          end
                      end
                    else None
                end
            end
          else None
      end
  end.

(** [json.loads(line)]: one value and nothing but white space around it. *)
Definition loads (line : string) : option Py.json :=
  match parse_value (String.length line) (skip_ws line) with
  | Some (v, rest) =>
      match skip_ws rest with
      | EmptyString => Some v
      | String _ _ => None
      end
  | None => None
  end.

(** [d.get(key)] on the dict read from an object: the last member of that
    name. *)
Fixpoint get (key : string) (members : list (string * Py.json)) : option Py.json :=
  match members with
  | [] => None
  | (k, v) :: members' =>
      match get key members' with
      | Some v' => Some v'
      | None => if String.eqb k key then Some v else None
      end
  end.

(** A list of JSON strings. *)
Fixpoint strings_of_json (items : list Py.json) : option (list string) :=
  match items with
  | [] => Some []
  | Py.JStr s :: items' =>
      match strings_of_json items' with
      | Some l => Some (s :: l)
      | None => None
      end
  | _ :: _ => None
  end.

(** [{name: string, content: string, type: string}]. *)
Definition file_of_json (v : Py.json) : option Py.FileArtifact :=
  match v with
  | Py.JObj members =>
      match get "name" members, get "content" members, get "type" members with
      | Some (Py.JStr name), Some (Py.JStr content), Some (Py.JStr type) =>
          Some {| Py.name := name; Py.content := content; Py.type := type |}
      | _, _, _ => None
      end
  | _ => None
  end.

Fixpoint files_of_json (items : list Py.json) : option (list Py.FileArtifact) :=
  match items with
  | [] => Some []
  | v :: items' =>
      match file_of_json v, files_of_json items' with
      | Some f, Some l => Some (f :: l)
      | _, _ => None
      end
  end.

(** [{nodes: list<string>, files: list<FileArtifact>}]. *)
Definition envelope_of_json (v : Py.json) : option Py.ResultEnvelope :=
  match v with
  | Py.JObj members =>
      match get "nodes" members, get "files" members with
      | Some (Py.JArr nodes), Some (Py.JArr files) =>
          match strings_of_json nodes, files_of_json files with
          | Some nodes, Some files => Some {| Py.nodes := nodes; Py.files := files |}
          | _, _ => None
          end
      | _, _ => None
      end
  | _ => None
  end.

(** What the tool gets from the standard output of a module: the output is
    one line, and the line reads as an envelope. *)
Definition read_output (out : string) : option Py.ResultEnvelope :=
  match Py.count_lines out with
  | 1%nat =>
      match loads out with
      | Some v => envelope_of_json v
      | None => None
      end
  | _ => None
  end.

(** A text opens a value: its first character is not white space and
    closes neither an array nor an object. *)
Definition opens (s : string) : Prop :=
  exists c t, s = String c t /\ is_ws c = false /\
              Ascii.eqb c "]" = false /\ Ascii.eqb c "}" = false.

(** A value is read back from its text, whatever follows, with fuel for
    its text. *)
Definition reads_back (v : Py.json) : Prop :=
  forall (fuel : nat) (rest : string),
    (String.length (Py.dumps v) <= fuel)%nat ->
    parse_value fuel (Py.dumps v ++ rest) = Some (v, rest).

(** A standard output carries exactly one envelope: it is one line ended
    by its line feed, and the line reads as that envelope. *)
Definition one_envelope_line (out : string) (e : Py.ResultEnvelope) : Prop :=
  (exists line, out = Py.print line /\ Py.count_lines line = 0%nat) /\
  Py.count_lines out = 1%nat /\
  read_output out = Some e.

End Reader.

(** ** saves/examples/hashDetect.py *)

Module HashDetect.

(** The alternation of the first pattern, in the order it is written. *)
Definition prefix_alternatives : list string :=
  ["md5"; "sha1"; "sha256"; "sha512"; "ntlm"; "lm"; "bcrypt"; "scrypt"; "pbkdf2"].

(** Matching a literal at the start of [s]: what follows it, when it is there. *)
Fixpoint match_literal (lit s : string) : option string :=
  match lit with
  | EmptyString => Some s
  | String a lit' =>
      match s with
      | EmptyString => None
      | String b s' => if Ascii.eqb a b then match_literal lit' s' else None
      end
  end.

(** [re] tries the alternatives from left to right and keeps the first one
    that lets the rest of the pattern match; [[:\s]*] matches anything, so
    that is the first alternative found at the start of [s]. *)
Fixpoint match_alternation (alts : list string) (s : string) : option string :=
  match alts with
  | [] => None
  | lit :: alts' =>
      match match_literal lit s with
      | Some rest => Some rest
      | None => match_alternation alts' s
      end
  end.

(** The class [[:\s]]. *)
Definition colon_or_space (c : ascii) : bool :=
  Ascii.eqb c ":" || Py.isspace c.

(** The greedy [[:\s]*]: the longest run of the class is consumed. *)
Fixpoint skip_colon_space (s : string) : string :=
  match s with
  | EmptyString => EmptyString
  | String c s' => if colon_or_space c then skip_colon_space s' else s
  end.

(** [re.sub(r'^(md5|...|pbkdf2)[:\s]*', '', s)]: the pattern is anchored, so
    at most the one match at the start is replaced. *)
Definition sub_prefix (s : string) : string :=
  match match_alternation prefix_alternatives s with
  | Some rest => skip_colon_space rest
  | None => s
  end.

(** The class [[:\s\-_]]. *)
Definition separator (c : ascii) : bool :=
  Ascii.eqb c ":" || Py.isspace c || Ascii.eqb c "-" || Ascii.eqb c "_".

(** [re.sub(r'[:\s\-_]+', '', s)]: every run of separators is deleted. *)
Fixpoint sub_separators (s : string) : string :=
  match s with
  | EmptyString => EmptyString
  | String c s' => if separator c then sub_separators s' else String c (sub_separators s')
  end.

(** Lines 7-8: [clean_hash] from [hash_input]. *)
Definition clean_hash (hash_input : string) : string :=
  sub_separators (sub_prefix (Py.lower hash_input)).

(** Lines 11-24: the table from length to candidate algorithms. *)
Definition hash_patterns : gmap nat (list string) :=
  list_to_map
    [ (32, ["MD5"; "MD4"; "MD2"; "NTLM"; "LM"]);
      (40, ["SHA1"; "RIPEMD-160"]);
      (56, ["SHA-224"]);
      (64, ["SHA-256"; "SHA3-256"; "BLAKE2s-256"; "BLAKE2b-256"]);
      (96, ["SHA-384"; "SHA3-384"; "BLAKE2b-384"]);
      (128, ["SHA-512"; "SHA3-512"; "BLAKE2b-512"; "Whirlpool"]);
      (8, ["CRC32"]);
      (16, ["CRC64"]);
      (24, ["DES"]);
      (48, ["DES-EDE3"]);
      (60, ["bcrypt"]);
      (86, ["scrypt"]) ]%nat.

(** The keys of the table, in the order they are written. *)
Definition table_lengths : list nat := [32; 40; 56; 64; 96; 128; 8; 16; 24; 48; 60; 86]%nat.

(** Line 28: [hash_patterns.get(hash_length, [])]. *)
Definition possible_types (hash_length : nat) : list string :=
  default [] (hash_patterns !! hash_length).

(** Line 30: the Fact appended first. *)
Definition length_fact (hash_length : nat) : string :=
  "Hash Length: " ++ Py.str_int (Z.of_nat hash_length) ++ " characters".

(** Lines 32-47: the second Fact. *)
Definition type_fact (hash_length : nat) : string :=
  match possible_types hash_length with
  | [] => "Unknown hash type"
  | first :: _ =>
      if Nat.eqb hash_length 32 then "Most Likely: MD5 or NTLM"
      else if Nat.eqb hash_length 40 then "Most Likely: SHA1"
      else if Nat.eqb hash_length 64 then "Most Likely: SHA-256"
      else if Nat.eqb hash_length 128 then "Most Likely: SHA-512"
      else if Nat.eqb hash_length 60 then "Most Likely: bcrypt"
      else "Most Likely: " ++ first
  end.

(** Lines 3, 27-47: the list [nodes] when the guard of line 49 is reached. *)
Definition accumulated_nodes (hash_input : string) : list string :=
  let nodes : list string := [] in
  let hash_length := String.length (clean_hash hash_input) in
  let nodes := (nodes ++ [length_fact hash_length])%list in
  let nodes := (nodes ++ [type_fact hash_length])%list in
  nodes.

(** Lines 5-52: the body of [try].  Every call in it ([str.lower],
    [re.sub], [len], [dict.get], [list.append]) is total on a [str], so the
    body always returns; it ends in the guard of line 49, which chooses
    what is printed. *)
Definition try_body (hash_input : string) : Py.outcome Py.ResultEnvelope :=
  let nodes := accumulated_nodes hash_input in
  match nodes with
  | [] =>
      Py.Returned {| Py.nodes := ["Unable to analyze hash: " ++ hash_input]; Py.files := [] |}
  | _ :: _ =>
      Py.Returned {| Py.nodes := nodes; Py.files := [] |}
  end.

(** Lines 5-55: [try] with its handler. *)
Definition result_data (hash_input : string) : Py.ResultEnvelope :=
  match try_body hash_input with
  | Py.Returned printed => printed
  | Py.Raised e => {| Py.nodes := ["Error analyzing hash: " ++ e]; Py.files := [] |}
  end.

(** The rule the curated answers of lines 34-43 are compared with: the
    first candidate of the table's list, as line 45 takes it. *)
Definition first_candidate_fact (hash_length : nat) : string :=
  match possible_types hash_length with
  | [] => "Unknown hash type"
  | first :: _ => "Most Likely: " ++ first
  end.

(** The script: line 2 strips the argument, then exactly one of the
    [print]s of lines 50, 52 and 55 runs.  The result is the standard output. *)
Definition main (argv1 : string) : string :=
  let hash_input := Py.strip argv1 in
  Py.print_result (result_data hash_input).

End HashDetect.

(** ** saves/examples/dnsTransfer.py *)

Module DnsTransfer.

(** What [subprocess.run(..., capture_output=True, text=True)] returns. *)
Record CompletedProcess : Type := {
  returncode : Z;
  stdout : string;
  stderr : string
}.

(** The outside world of one run: the call of [dig] (it raises on a missing
    program, on the timeout, ...) and the reading of [time.time()]. *)
Record world : Type := {
  subprocess_run : Py.outcome CompletedProcess;
  time_time : Q
}.

(** Lines 10-14. *)
Definition report (domain : string) (result : CompletedProcess) : string :=
  let report := "DNS Zone Transfer Report for " ++ domain ++ Py.nl in
  let report := report ++ (Py.repeat_char "=" 50 ++ Py.nl ++ Py.nl) in
  let report := report ++ ("Command: dig @" ++ domain ++ " AXFR " ++ domain ++ Py.nl ++ Py.nl) in
  let report := report ++ ("Results:" ++ Py.nl) in
  let report := report ++ stdout result in
  report.

(** Lines 28-34. *)
Definition failure_report (domain : string) (result : CompletedProcess) : string :=
  let failure_report := "DNS Zone Transfer Report for " ++ domain ++ Py.nl in
  let failure_report := failure_report ++ (Py.repeat_char "=" 50 ++ Py.nl ++ Py.nl) in
  let failure_report :=
    failure_report ++ ("Command: dig @" ++ domain ++ " AXFR " ++ domain ++ Py.nl ++ Py.nl) in
  let failure_report := failure_report ++ ("Status: FAILED" ++ Py.nl) in
  let failure_report :=
    failure_report ++ ("Return Code: " ++ Py.str_int (returncode result) ++ Py.nl) in
  let failure_report := failure_report ++ ("Error Output: " ++ stderr result ++ Py.nl) in
  let failure_report := failure_report ++ ("Standard Output: " ++ stdout result ++ Py.nl) in
  failure_report.

(** Lines 47-51; [e] is [str(e)]. *)
Definition error_report (domain e : string) : string :=
  let error_report := "DNS Zone Transfer Report for " ++ domain ++ Py.nl in
  let error_report := error_report ++ (Py.repeat_char "=" 50 ++ Py.nl ++ Py.nl) in
  let error_report :=
    error_report ++ ("Command: dig @" ++ domain ++ " AXFR " ++ domain ++ Py.nl ++ Py.nl) in
  let error_report := error_report ++ ("Status: ERROR" ++ Py.nl) in
  let error_report := error_report ++ ("Error: " ++ e ++ Py.nl) in
  error_report.

(** [int(time.time())], formatted. *)
Definition timestamp (w : world) : string := Py.str_int (Py.int_of_float (time_time w)).

(** Lines 3-60: the [result_data] of the branch that runs. *)
Definition result_data (domain : string) (w : world) : Py.ResultEnvelope :=
  match subprocess_run w with
  | Py.Returned result =>
      if (returncode result =? 0)%Z && Py.truthy_str (stdout result) then
        {| Py.nodes := [];
           Py.files := [ {| Py.name := "zone_transfer_" ++ domain ++ "_" ++ timestamp w ++ ".txt";
                            Py.content := report domain result;
                            Py.type := "text" |} ] |}
      else
        {| Py.nodes := [];
           Py.files := [ {| Py.name := "zone_transfer_failed_" ++ domain ++ "_" ++ timestamp w ++ ".txt";
                            Py.content := failure_report domain result;
                            Py.type := "text" |} ] |}
  | Py.Raised e =>
      {| Py.nodes := [];
         Py.files := [ {| Py.name := "zone_transfer_error_" ++ domain ++ "_" ++ timestamp w ++ ".txt";
                          Py.content := error_report domain e;
                          Py.type := "text" |} ] |}
  end.

(** The script: each branch ends in [print(json.dumps(result_data))]
    (lines 25, 44 and 61).  The result is the standard output. *)
Definition main (domain : string) (w : world) : string :=
  Py.print_result (result_data domain w).

(** The three reports the script can write: the one of lines 9-25 after a
    transfer, the one of lines 27-44 after a failure of the command, and the
    one of lines 46-61 after an exception. *)
Inductive variant : Type := Transferred | Failed | Errored.

(** The variant of a run: the branch of lines 8, 26 and 45 that it takes. *)
Definition variant_of (w : world) : variant :=
  match subprocess_run w with
  | Py.Returned result =>
      if (returncode result =? 0)%Z && Py.truthy_str (stdout result) then Transferred
      else Failed
  | Py.Raised _ => Errored
  end.

(** What the file name of a variant starts with (lines 20, 39 and 56). *)
Definition variant_prefix (v : variant) : string :=
  match v with
  | Transferred => "zone_transfer_"
  | Failed => "zone_transfer_failed_"
  | Errored => "zone_transfer_error_"
  end.

End DnsTransfer.

(** ** saves/examples/domainreport.py *)

Module DomainReport.

(** A reading of [datetime.datetime.now()]: the fields [strftime] prints
    and the value of [timestamp()]. *)
Record datetime : Type := {
  year : nat;
  month : nat;
  day : nat;
  hour : nat;
  minute : nat;
  second : nat;
  posix : Q
}.

(** [d.strftime('%Y-%m-%d %H:%M:%S')]. *)
Definition strftime (d : datetime) : string :=
  let dec (width n : nat) := Py.zfill width (Py.str_int (Z.of_nat n)) in
  dec 4 (year d) ++ "-" ++ dec 2 (month d) ++ "-" ++ dec 2 (day d) ++ " " ++
  dec 2 (hour d) ++ ":" ++ dec 2 (minute d) ++ ":" ++ dec 2 (second d).

(** The outside world of one run: the TLS handshake up to [getpeercert()],
    [socket.gethostbyname], [requests.get] (its [headers.items()]), and the
    two readings of the clock, of lines 70 and 76.  Leaving the [with]
    blocks closes the sockets and is taken not to raise. *)
Record world : Type := {
  getpeercert : Py.outcome (gmap string Py.value);
  gethostbyname : Py.outcome string;
  requests_get : Py.outcome (list (string * string));
  now_generated : datetime;
  now_named : datetime
}.

(** The variables the script updates as it goes. *)
Record vars : Type := {
  report_content : string;
  resolved_ip : option string;
  ssl_issuer : option Py.value;
  server_header : option string
}.

(** [bool(x)] for a variable that is [None] or a value. *)
Definition truthy_opt (x : option Py.value) : bool :=
  match x with None => false | Some v => Py.truthy v end.

(** Lines 30-34: the inner loop, which stops at the first pair whose name
    is [organizationName]. *)
Fixpoint scan_item (subitems : list Py.value) (ssl_issuer : option Py.value)
  : option Py.value :=
  match subitems with
  | [] => ssl_issuer
  | subitem :: subitems' =>
      match subitem with
      | Py.Tuple [Py.Str k; v] =>
          if String.eqb k "organizationName" then Some v
          else scan_item subitems' ssl_issuer
      | _ => scan_item subitems' ssl_issuer
      end
  end.

(** Lines 28-36: the outer loop, left as soon as [ssl_issuer] is truthy. *)
Fixpoint scan_issuer (items : list Py.value) (ssl_issuer : option Py.value)
  : option Py.value :=
  match items with
  | [] => ssl_issuer
  | item :: items' =>
      match item with
      | Py.Tuple ((_ :: _) as subitems) =>
          let ssl_issuer := scan_item subitems ssl_issuer in
          if truthy_opt ssl_issuer then ssl_issuer else scan_issuer items' ssl_issuer
      | _ => scan_issuer items' ssl_issuer
      end
  end.

(** Lines 26-36: [cert.get('issuer', [])] and the search in it. *)
Definition extract_issuer (cert : gmap string Py.value) (ssl_issuer : option Py.value)
  : option Py.value :=
  match cert !! "issuer" with
  | None => ssl_issuer
  | Some issuer_info =>
      if Py.truthy issuer_info then scan_issuer (Py.iter issuer_info) ssl_issuer
      else ssl_issuer
  end.

(** Lines 14-38: SSL certificate information. *)
Definition ssl_probe (w : world) (v : vars) : vars :=
  match getpeercert w with
  | Py.Returned cert =>
      let get key := Py.str (default (Py.Str "N/A") (cert !! key)) in
      let rc := report_content v in
      let rc := rc ++ ("SSL Certificate Details:" ++ Py.nl) in
      let rc := rc ++ ("Subject: " ++ get "subject" ++ Py.nl) in
      let rc := rc ++ ("Issuer: " ++ get "issuer" ++ Py.nl) in
      let rc := rc ++ ("Valid From: " ++ get "notBefore" ++ Py.nl) in
      let rc := rc ++ ("Valid Until: " ++ get "notAfter" ++ Py.nl ++ Py.nl) in
      {| report_content := rc;
         resolved_ip := resolved_ip v;
         ssl_issuer := extract_issuer cert (ssl_issuer v);
         server_header := server_header v |}
  | Py.Raised e =>
      {| report_content := report_content v ++ ("SSL Certificate Error: " ++ e ++ Py.nl ++ Py.nl);
         resolved_ip := resolved_ip v;
         ssl_issuer := ssl_issuer v;
         server_header := server_header v |}
  end.

(** Lines 41-45: DNS resolution. *)
Definition dns_probe (domain : string) (w : world) (v : vars) : vars :=
  match gethostbyname w with
  | Py.Returned ip =>
      {| report_content :=
           report_content v ++ ("DNS Resolution: " ++ domain ++ " -> " ++ ip ++ Py.nl ++ Py.nl);
         resolved_ip := Some ip;
         ssl_issuer := ssl_issuer v;
         server_header := server_header v |}
  | Py.Raised e =>
      {| report_content := report_content v ++ ("DNS Resolution Error: " ++ e ++ Py.nl ++ Py.nl);
         resolved_ip := resolved_ip v;
         ssl_issuer := ssl_issuer v;
         server_header := server_header v |}
  end.

(** Line 52: the headers that are reported. *)
Definition reported_headers : list string :=
  ["server"; "x-powered-by"; "x-frame-options"; "content-security-policy"].

(** Lines 51-55: the loop over [response.headers.items()]. *)
Fixpoint scan_headers (items : list (string * string)) (v : vars) : vars :=
  match items with
  | [] => v
  | (header, value) :: items' =>
      if existsb (String.eqb (Py.lower header)) reported_headers then
        scan_headers items'
          {| report_content := report_content v ++ (header ++ ": " ++ value ++ Py.nl);
             resolved_ip := resolved_ip v;
             ssl_issuer := ssl_issuer v;
             server_header :=
               if String.eqb (Py.lower header) "server" then Some value else server_header v |}
      else scan_headers items' v
  end.

(** The value of the last header whose lower-cased name is [server]: what
    the loop leaves in [server_header] when there is one. *)
Fixpoint last_server (items : list (string * string)) : option string :=
  match items with
  | [] => None
  | (header, value) :: items' =>
      match last_server items' with
      | Some server => Some server
      | None => if String.eqb (Py.lower header) "server" then Some value else None
      end
  end.

(** Lines 48-58: HTTP headers analysis. *)
Definition http_probe (w : world) (v : vars) : vars :=
  match requests_get w with
  | Py.Returned items =>
      let v :=
        {| report_content := report_content v ++ ("HTTP Headers Analysis:" ++ Py.nl);
           resolved_ip := resolved_ip v;
           ssl_issuer := ssl_issuer v;
           server_header := server_header v |} in
      let v := scan_headers items v in
      {| report_content := report_content v ++ Py.nl;
         resolved_ip := resolved_ip v;
         ssl_issuer := ssl_issuer v;
         server_header := server_header v |}
  | Py.Raised e =>
      {| report_content := report_content v ++ ("HTTP Analysis Error: " ++ e ++ Py.nl ++ Py.nl);
         resolved_ip := resolved_ip v;
         ssl_issuer := ssl_issuer v;
         server_header := server_header v |}
  end.

(** Lines 5-11: the variables before the first probe. *)
Definition initial (domain : string) : vars :=
  let rc := "Domain Intelligence Report for " ++ domain ++ Py.nl in
  let rc := rc ++ (Py.repeat_char "=" 50 ++ Py.nl ++ Py.nl) in
  {| report_content := rc; resolved_ip := None; ssl_issuer := None; server_header := None |}.

(** Lines 13-58: the three probes, in the order they are written. *)
Definition run_probes (domain : string) (w : world) : vars :=
  http_probe w (dns_probe domain w (ssl_probe w (initial domain))).

(** Lines 61-67: the nodes for key findings; [None] and the empty string
    are falsy. *)
Definition make_nodes (v : vars) : list string :=
  let nodes : list string := [] in
  let nodes :=
    match resolved_ip v with
    | Some ip =>
        if Py.truthy_str ip then (nodes ++ [("IP Address: " ++ ip)%string])%list else nodes
    | None => nodes
    end in
  let nodes :=
    match ssl_issuer v with
    | Some issuer =>
        if Py.truthy issuer then (nodes ++ [("SSL Issuer: " ++ Py.str issuer)%string])%list
        else nodes
    | None => nodes
    end in
  let nodes :=
    match server_header v with
    | Some server =>
        if Py.truthy_str server then (nodes ++ [("Web Server: " ++ server)%string])%list
        else nodes
    | None => nodes
    end in
  nodes.

(** [a] comes before [b] in a list of Facts. *)
Definition precedes (a b : string) (facts : list string) : Prop :=
  exists i j : nat, facts !! i = Some a /\ facts !! j = Some b /\ (i < j)%nat.

(** Lines 61-80: [result_data]. *)
Definition result_data (domain : string) (w : world) : Py.ResultEnvelope :=
  let v := run_probes domain w in
  let nodes := make_nodes v in
  let rc := report_content v ++ ("Report Generated: " ++ strftime (now_generated w) ++ Py.nl) in
  {| Py.nodes := nodes;
     Py.files :=
       [ {| Py.name :=
              "domain_intel_" ++ domain ++ "_" ++
              Py.str_int (Py.int_of_float (posix (now_named w))) ++ ".txt";
            Py.content := rc;
            Py.type := "text" |} ] |}.

(** The script: line 81 is its only [print].  The result is the standard
    output. *)
Definition main (domain : string) (w : world) : string :=
  Py.print_result (result_data domain w).

End DomainReport.

(** ** Sample runs

    Worlds on which the properties below are exercised. *)

Module Samples.

(** [dig] answers with a zone, refuses the transfer, and cannot be started. *)
Definition dig_ok : DnsTransfer.world :=
  {| DnsTransfer.subprocess_run :=
       Py.Returned {| DnsTransfer.returncode := 0;
                      DnsTransfer.stdout := "example.com. 3600 IN SOA ns.example.com.";
                      DnsTransfer.stderr := "" |};
     DnsTransfer.time_time := 1700000000.25%Q |}.

Definition dig_refused : DnsTransfer.world :=
  {| DnsTransfer.subprocess_run :=
       Py.Returned {| DnsTransfer.returncode := 9;
                      DnsTransfer.stdout := "";
                      DnsTransfer.stderr := "couldn't get address" |};
     DnsTransfer.time_time := 1700000000.25%Q |}.

Definition dig_missing : DnsTransfer.world :=
  {| DnsTransfer.subprocess_run := Py.Raised "[Errno 2] No such file or directory: 'dig'";
     DnsTransfer.time_time := 1700000000.25%Q |}.

(** The same failure three quarters of a second into the same second. *)
Definition dig_missing_later : DnsTransfer.world :=
  {| DnsTransfer.subprocess_run := Py.Raised "[Errno 2] No such file or directory: 'dig'";
     DnsTransfer.time_time := 1700000000.75%Q |}.

Definition clock : DomainReport.datetime :=
  {| DomainReport.year := 2023; DomainReport.month := 11; DomainReport.day := 14;
     DomainReport.hour := 22; DomainReport.minute := 13; DomainReport.second := 20;
     DomainReport.posix := 1700000000.25%Q |}.

(** A certificate as [getpeercert()] returns it. *)
Definition cert : gmap string Py.value :=
  list_to_map
    [ ("subject", Py.Tuple [Py.Tuple [Py.Tuple [Py.Str "commonName"; Py.Str "example.com"]]]);
      ("issuer",
       Py.Tuple [ Py.Tuple [Py.Tuple [Py.Str "countryName"; Py.Str "US"]];
                  Py.Tuple [Py.Tuple [Py.Str "organizationName"; Py.Str "DigiCert Inc"]];
                  Py.Tuple [Py.Tuple [Py.Str "commonName"; Py.Str "DigiCert TLS CA"]] ]);
      ("notBefore", Py.Str "Jan 30 00:00:00 2023 GMT");
      ("notAfter", Py.Str "Mar  1 23:59:59 2024 GMT") ].

(** Every probe fails: the host cannot be reached. *)
Definition unreachable : DomainReport.world :=
  {| DomainReport.getpeercert := Py.Raised "[Errno -2] Name or service not known";
     DomainReport.gethostbyname := Py.Raised "[Errno -2] Name or service not known";
     DomainReport.requests_get := Py.Raised "Max retries exceeded";
     DomainReport.now_generated := clock;
     DomainReport.now_named := clock |}.

(** The first two probes succeed, the third fails. *)
Definition ssl_and_dns : DomainReport.world :=
  {| DomainReport.getpeercert := Py.Returned cert;
     DomainReport.gethostbyname := Py.Returned "93.184.216.34";
     DomainReport.requests_get := Py.Raised "Max retries exceeded";
     DomainReport.now_generated := clock;
     DomainReport.now_named := clock |}.

End Samples.

(** ** tests/testScript.py *)

Module TestScript.

(** [format(n, 'b')]: the binary digits of [n], the most significant first. *)
Fixpoint bin_pos (p : positive) : string :=
  match p with
  | xH => "1"
  | xO p' => bin_pos p' ++ "0"
  | xI p' => bin_pos p' ++ "1"
  end.
Definition format_b (n : N) : string :=
  match n with
  | N0 => "0"
  | Npos p => bin_pos p
  end.

(** [format(n, '08b')]: padded with zeros to eight digits. *)
Definition format_08b (n : N) : string := Py.zfill 8 (format_b n).

(** Line 5: [f"{c} = {format(ord(c), '08b')}"]. *)
Definition entry (c : ascii) : string :=
  String c EmptyString ++ " = " ++ format_08b (Py.ord c).

(** Lines 4-5: [text_to_binary]. *)
Fixpoint text_to_binary (text : string) : list string :=
  match text with
  | EmptyString => []
  | String c text' => entry c :: text_to_binary text'
  end.

(** Lines 7-14: the script, on [sys.argv] (the name of the script first).
    With fewer than two entries it prints [[]] and exits with status 0;
    otherwise it prints the list for [sys.argv[1]].  The result is the
    standard output. *)
Definition main (argv : list string) : string :=
  match argv with
  | _ :: input_text :: _ =>
      let results := text_to_binary input_text in
      Py.print (Py.dumps (Py.JArr (List.map Py.JStr results)))
  | _ => Py.print "[]"
  end.

(** [int(digits, 2)] for a string of binary digits. *)
Fixpoint int_base2 (acc : N) (digits : string) : option N :=
  match digits with
  | EmptyString => Some acc
  | String d digits' =>
      if Ascii.eqb d "0" then int_base2 (2 * acc) digits'
      else if Ascii.eqb d "1" then int_base2 (2 * acc + 1) digits'
      else None
  end.

(** The character an entry stands for, read from its binary digits alone:
    [chr(int(e[4:], 2))] when [e[1:4]] is [" = "]. *)
Definition decode_entry (e : string) : option ascii :=
  match e with
  | String _ (String sp1 (String eq (String sp2 digits))) =>
      if Ascii.eqb sp1 " " && Ascii.eqb eq "=" && Ascii.eqb sp2 " " then
        match digits, int_base2 0 digits with
        | String _ _, Some n => if (n <? 256)%N then Some (ascii_of_N n) else None
        | _, _ => None
        end
      else None
  | _ => None
  end.

(** The text a list of entries stands for. *)
Fixpoint decode (entries : list string) : option string :=
  match entries with
  | [] => Some EmptyString
  | e :: entries' =>
      match decode_entry e, decode entries' with
      | Some c, Some text => Some (String c text)
      | _, _ => None
      end
  end.

End TestScript.

(** ** Predicates on texts used to state properties *)

Module Text.

(** Every character of [s] is white space ([s] may be empty). *)
Fixpoint blank (s : string) : bool :=
  match s with
  | EmptyString => true
  | String c s' => Py.isspace c && blank s'
  end.

(** Every character of [s] is a printable ASCII character (U+0020..U+007E). *)
Fixpoint printable_ascii (s : string) : bool :=
  match s with
  | EmptyString => true
  | String c s' => ((32 <=? Py.ord c) && (Py.ord c <=? 126))%N && printable_ascii s'
  end.

(** Every character of [s] is in the class [[:\s\-_]] ([s] may be empty). *)
Fixpoint separators (s : string) : bool :=
  match s with
  | EmptyString => true
  | String c s' => HashDetect.separator c && separators s'
  end.

End Text.

(** ** domainreport.py: what a probe writes, and well-formed names *)

Module Report.

(** The variables before anything is found, with an empty report. *)
Definition no_findings : DomainReport.vars :=
  {| DomainReport.report_content := EmptyString;
     DomainReport.resolved_ip := None;
     DomainReport.ssl_issuer := None;
     DomainReport.server_header := None |}.

(** What a probe writes into an empty report. *)
Definition written (probe : DomainReport.vars -> DomainReport.vars) : string :=
  DomainReport.report_content (probe no_findings).

(** Is the header one of those line 52 lists? *)
Definition reported (item : string * string) : bool :=
  existsb (String.eqb (Py.lower (fst item))) DomainReport.reported_headers.

(** The line of the report for one header. *)
Definition header_line (item : string * string) : string :=
  fst item ++ ": " ++ snd item ++ Py.nl.

(** The lines of the reported headers of a response, in its order. *)
Definition header_lines (items : list (string * string)) : string :=
  Py.join EmptyString (List.map header_line (List.filter reported items)).

(** A distinguished name as [getpeercert()] gives it: a tuple of relative
    names, each a tuple of (name, value) pairs of strings. *)
Definition pair_value (kv : string * string) : Py.value :=
  Py.Tuple [Py.Str (fst kv); Py.Str (snd kv)].
Definition rdn_value (rdn : list (string * string)) : Py.value :=
  Py.Tuple (List.map pair_value rdn).
Definition name_value (rdns : list (list (string * string))) : Py.value :=
  Py.Tuple (List.map rdn_value rdns).

(** The value of the first [organizationName] of a relative name. *)
Fixpoint first_organization (rdn : list (string * string)) : option string :=
  match rdn with
  | [] => None
  | (k, v) :: rdn' =>
      if String.eqb k "organizationName" then Some v else first_organization rdn'
  end.

(** The first non-empty one among the first [organizationName]s of the
    relative names. *)
Fixpoint issuer_organization (rdns : list (list (string * string))) : option string :=
  match rdns with
  | [] => None
  | rdn :: rdns' =>
      match first_organization rdn with
      | Some v => if Py.truthy_str v then Some v else issuer_organization rdns'
      | None => issuer_organization rdns'
      end
  end.

(** The text of the finding a variable holds, when it is truthy. *)
Definition finding (x : option Py.value) : option string :=
  match x with
  | Some v => if Py.truthy v then Some (Py.str v) else None
  | None => None
  end.

End Report.

(** * Properties *)

(** ** Strings *)

Module StringFacts.

Lemma app_assoc (a b c : string) : (a ++ b) ++ c = a ++ b ++ c.
Proof. induction a as [|x a IH]; simpl; [reflexivity | now rewrite IH]. Qed.

Lemma app_nil_r (a : string) : a ++ "" = a.
Proof. induction a as [|x a IH]; simpl; [reflexivity | now rewrite IH]. Qed.

Lemma length_app (a b : string) :
  String.length (a ++ b) = (String.length a + String.length b)%nat.
Proof. induction a as [|x a IH]; simpl; [reflexivity | now rewrite IH]. Qed.

Lemma app_inv_head (a b c : string) : a ++ b = a ++ c -> b = c.
Proof. induction a as [|x a IH]; simpl; [auto | intros [= H]; auto]. Qed.

Lemma app_inv_tail (a b c : string) : a ++ c = b ++ c -> a = b.
Proof.
  revert b. induction a as [|x a IH]; intros [|y b] H; simpl in H.
  - reflexivity.
  - apply (f_equal String.length) in H. simpl in H. rewrite length_app in H. lia.
  - apply (f_equal String.length) in H. simpl in H. rewrite length_app in H. lia.
  - injection H as -> H. f_equal. now apply IH.
Qed.

End StringFacts.

(** ** hashDetect.py *)

Section HashDetectFacts.
Import HashDetect.

Lemma hash_patterns_other (n : nat) : n ∉ table_lengths -> hash_patterns !! n = None.
Proof.
  intros H. unfold hash_patterns. simpl.
  repeat (rewrite lookup_insert_ne; [| intros <-; apply H; unfold table_lengths; set_solver]).
  apply lookup_empty.
Qed.

Lemma colon_or_space_separator (c : ascii) : colon_or_space c = true -> separator c = true.
Proof. unfold colon_or_space, separator. intros ->. reflexivity. Qed.

(** What [[:\s]*] consumes the second substitution would delete anyway. *)
Lemma sub_separators_skip (s : string) :
  sub_separators (skip_colon_space s) = sub_separators s.
Proof.
  induction s as [|c s IH]; simpl; [reflexivity |].
  destruct (colon_or_space c) eqn:E.
  - now rewrite (colon_or_space_separator c E).
  - reflexivity.
Qed.

Lemma match_alternation_prefix (p rest : string) :
  In p prefix_alternatives -> match_alternation prefix_alternatives (p ++ rest) = Some rest.
Proof.
  unfold prefix_alternatives. simpl.
  intros [<-|[<-|[<-|[<-|[<-|[<-|[<-|[<-|[<-|[]]]]]]]]]]; reflexivity.
Qed.

(** The nodes are the two Facts of the normalized length. *)
Lemma result_data_nodes (hash_input : string) :
  result_data hash_input =
    {| Py.nodes := [length_fact (String.length (clean_hash hash_input));
                    type_fact (String.length (clean_hash hash_input))];
       Py.files := [] |}.
Proof. reflexivity. Qed.

Lemma length_sub_separators (s : string) :
  (String.length (sub_separators s) <= String.length s)%nat.
Proof.
  induction s as [| c s IH]; simpl; [lia |].
  destruct (separator c); simpl; lia.
Qed.

Lemma lower_app (a b : string) : Py.lower (a ++ b) = Py.lower a ++ Py.lower b.
Proof. induction a as [| c a IH]; simpl; [reflexivity | now rewrite IH]. Qed.

Lemma separator_lower_char (c : ascii) : separator (Py.lower_char c) = separator c.
Proof. destruct c as [[] [] [] [] [] [] [] []]; reflexivity. Qed.

Lemma separators_lower (gap : string) : Text.separators (Py.lower gap) = Text.separators gap.
Proof.
  induction gap as [| c gap IH]; simpl; [reflexivity | now rewrite separator_lower_char, IH].
Qed.

Lemma sub_separators_app (a b : string) :
  sub_separators (a ++ b) = sub_separators a ++ sub_separators b.
Proof.
  induction a as [| c a IH]; simpl; [reflexivity |].
  destruct (separator c); [exact IH | simpl; now rewrite IH].
Qed.

Lemma sub_separators_gap (gap : string) : Text.separators gap = true -> sub_separators gap = "".
Proof.
  induction gap as [| c gap IH]; simpl; [reflexivity |].
  intros H. apply andb_prop in H as [Hc Hgap]. rewrite Hc. auto.
Qed.

(** The second substitution does not see a run of separators, wherever it is. *)
Lemma sub_separators_insert (x gap y : string) :
  Text.separators gap = true -> sub_separators (x ++ gap ++ y) = sub_separators (x ++ y).
Proof.
  intros H. now rewrite !sub_separators_app, (sub_separators_gap gap H).
Qed.

(** A literal without separators that is not at the start of a text is not
    at its start either when a run of separators is put into the text. *)
Lemma match_literal_insert (lit x gap y : string) :
  sub_separators lit = lit -> Text.separators gap = true ->
  match_literal lit (x ++ y) = None -> match_literal lit (x ++ gap ++ y) = None.
Proof.
  revert x. induction lit as [| a lit IH]; intros x Hlit Hgap; simpl; [discriminate |].
  simpl in Hlit. destruct (separator a) eqn:Ea.
  - exfalso. pose proof (length_sub_separators lit) as L. rewrite Hlit in L. simpl in L. lia.
  - injection Hlit as Hlit. destruct x as [| b x]; simpl.
    + destruct gap as [| c gap]; simpl; [auto |].
      apply andb_prop in Hgap as [Hc _].
      destruct (Ascii.eqb_spec a c) as [-> | _]; [congruence | reflexivity].
    + destruct (Ascii.eqb a b); [now apply IH | reflexivity].
Qed.

Lemma match_alternation_insert (x gap y : string) :
  Text.separators gap = true ->
  match_alternation prefix_alternatives (x ++ y) = None ->
  match_alternation prefix_alternatives (x ++ gap ++ y) = None.
Proof.
  intros Hgap.
  assert (G : forall alts, Forall (fun lit => sub_separators lit = lit) alts ->
                match_alternation alts (x ++ y) = None ->
                match_alternation alts (x ++ gap ++ y) = None).
  { induction 1 as [| lit alts Hlit _ IH]; simpl; [reflexivity |].
    destruct (match_literal lit (x ++ y)) eqn:E; [discriminate |].
    intros H. rewrite (match_literal_insert lit x gap y Hlit Hgap E). auto. }
  apply G. unfold prefix_alternatives. repeat constructor.
Qed.

(** The normalized form of an input with a recognized prefix, and of one
    without. *)
Lemma clean_hash_prefixed (prefix rest : string) :
  In (Py.lower prefix) prefix_alternatives ->
  clean_hash (prefix ++ rest) = sub_separators (Py.lower rest).
Proof.
  intros H. unfold clean_hash, sub_prefix.
  rewrite lower_app, (match_alternation_prefix _ _ H). apply sub_separators_skip.
Qed.

Lemma clean_hash_unprefixed (s : string) :
  match_alternation prefix_alternatives (Py.lower s) = None ->
  clean_hash s = sub_separators (Py.lower s).
Proof. intros H. unfold clean_hash, sub_prefix. now rewrite H. Qed.

Lemma result_data_by_clean_hash (a b : string) :
  clean_hash a = clean_hash b -> result_data a = result_data b.
Proof. intros H. rewrite !result_data_nodes. now rewrite H. Qed.

End HashDetectFacts.

(** C2: the classifier is a function of its input, and for every input whose
    normalized form has length 32, 40, 64, 128 or 60 the "most likely" Fact is
    "Most Likely: MD5 or NTLM", "Most Likely: SHA1", "Most Likely: SHA-256",
    "Most Likely: SHA-512" and "Most Likely: bcrypt" respectively (it follows
    the Fact that reports the length). *)
Theorem C2_most_likely_by_length (hash_input : string) :
  let hash_length := String.length (HashDetect.clean_hash hash_input) in
  let nodes := Py.nodes (HashDetect.result_data hash_input) in
  (hash_length = 32%nat ->
   nodes = ["Hash Length: 32 characters"; "Most Likely: MD5 or NTLM"]) /\
  (hash_length = 40%nat ->
   nodes = ["Hash Length: 40 characters"; "Most Likely: SHA1"]) /\
  (hash_length = 64%nat ->
   nodes = ["Hash Length: 64 characters"; "Most Likely: SHA-256"]) /\
  (hash_length = 128%nat ->
   nodes = ["Hash Length: 128 characters"; "Most Likely: SHA-512"]) /\
  (hash_length = 60%nat ->
   nodes = ["Hash Length: 60 characters"; "Most Likely: bcrypt"]).
Proof.
  cbv zeta. rewrite result_data_nodes. cbn [Py.nodes].
  refine (conj _ (conj _ (conj _ (conj _ _)))); intros ->; reflexivity.
Qed.

(** One hash of each of the five lengths: MD5, SHA-1, SHA-256 and SHA-512
    digests of "hello" and a bcrypt hash. *)
Lemma C2_most_likely_by_length_witness :
  Py.nodes (HashDetect.result_data "5d41402abc4b2a76b9719d911017c592") =
    ["Hash Length: 32 characters"; "Most Likely: MD5 or NTLM"] /\
  Py.nodes (HashDetect.result_data "aaf4c61ddcc5e8a2dabede0f3b482cd9aea9434d") =
    ["Hash Length: 40 characters"; "Most Likely: SHA1"] /\
  Py.nodes (HashDetect.result_data
              "2cf24dba5fb0a30e26e83b2ac5b9e29e1b161e5c1fa7425e73043362938b9824") =
    ["Hash Length: 64 characters"; "Most Likely: SHA-256"] /\
  Py.nodes (HashDetect.result_data
              "9b71d224bd62f3785d96d46ad3ea3d73319bfbc2890caadae2dff72519673ca72323c3d99ba5c11d7c7acc6e14b8c5da0c4663475c2e5c3adef46f73bcdec043") =
    ["Hash Length: 128 characters"; "Most Likely: SHA-512"] /\
  Py.nodes (HashDetect.result_data
              "$2a$10$N9qo8uLOickgx2ZMRZoMyeIjZAgcfl7p92ldGxad68LJZdL17lhWy") =
    ["Hash Length: 60 characters"; "Most Likely: bcrypt"].
Proof.
  refine (conj _ (conj _ (conj _ (conj _ _)))).
  - apply (C2_most_likely_by_length "5d41402abc4b2a76b9719d911017c592"). reflexivity.
  - apply (C2_most_likely_by_length "aaf4c61ddcc5e8a2dabede0f3b482cd9aea9434d"). reflexivity.
  - apply (C2_most_likely_by_length
             "2cf24dba5fb0a30e26e83b2ac5b9e29e1b161e5c1fa7425e73043362938b9824").
    reflexivity.
  - apply (C2_most_likely_by_length
             "9b71d224bd62f3785d96d46ad3ea3d73319bfbc2890caadae2dff72519673ca72323c3d99ba5c11d7c7acc6e14b8c5da0c4663475c2e5c3adef46f73bcdec043").
    reflexivity.
  - apply (C2_most_likely_by_length
             "$2a$10$N9qo8uLOickgx2ZMRZoMyeIjZAgcfl7p92ldGxad68LJZdL17lhWy").
    reflexivity.
Defined.

(** C6: normalization makes the classifier insensitive to a recognized
    algorithm-name prefix and to separators.  An input and the same input
    behind a recognized prefix (in any case) and a run of separators normalize
    to the same length and get the same Facts, when the input does not itself
    begin with a recognized prefix; a run of separators (colons, hyphens,
    underscores, white space) put anywhere into an input changes neither the
    normalized length nor the Facts, after a recognized prefix and in an
    input without one.  In particular
    "MD5:5d41402abc4b2a76b9719d911017c592" and
    "5d41402abc4b2a76b9719d911017c592" normalize to the same length, 32, and
    the classifier emits the same Facts (and prints the same line) for both. *)
Theorem C6_prefix_insensitive :
  (forall prefix gap h : string,
     In (Py.lower prefix) HashDetect.prefix_alternatives ->
     Text.separators gap = true ->
     HashDetect.match_alternation HashDetect.prefix_alternatives (Py.lower h) = None ->
     String.length (HashDetect.clean_hash (prefix ++ gap ++ h)) =
       String.length (HashDetect.clean_hash h) /\
     HashDetect.result_data (prefix ++ gap ++ h) = HashDetect.result_data h) /\
  (forall prefix x gap y : string,
     In (Py.lower prefix) HashDetect.prefix_alternatives ->
     Text.separators gap = true ->
     String.length (HashDetect.clean_hash (prefix ++ x ++ gap ++ y)) =
       String.length (HashDetect.clean_hash (prefix ++ x ++ y)) /\
     HashDetect.result_data (prefix ++ x ++ gap ++ y) =
       HashDetect.result_data (prefix ++ x ++ y)) /\
  (forall x gap y : string,
     Text.separators gap = true ->
     HashDetect.match_alternation HashDetect.prefix_alternatives (Py.lower (x ++ y)) = None ->
     String.length (HashDetect.clean_hash (x ++ gap ++ y)) =
       String.length (HashDetect.clean_hash (x ++ y)) /\
     HashDetect.result_data (x ++ gap ++ y) = HashDetect.result_data (x ++ y)) /\
  (let with_prefix := Py.strip "MD5:5d41402abc4b2a76b9719d911017c592" in
   let bare := Py.strip "5d41402abc4b2a76b9719d911017c592" in
   String.length (HashDetect.clean_hash with_prefix) = 32%nat /\
   String.length (HashDetect.clean_hash bare) = 32%nat /\
   Py.nodes (HashDetect.result_data with_prefix) = Py.nodes (HashDetect.result_data bare) /\
   HashDetect.main "MD5:5d41402abc4b2a76b9719d911017c592" =
     HashDetect.main "5d41402abc4b2a76b9719d911017c592").
Proof.
  assert (G : forall a b, HashDetect.clean_hash a = HashDetect.clean_hash b ->
                String.length (HashDetect.clean_hash a) = String.length (HashDetect.clean_hash b) /\
                HashDetect.result_data a = HashDetect.result_data b).
  { intros a b E. split; [now rewrite E | now apply result_data_by_clean_hash]. }
  refine (conj _ (conj _ (conj _ _))).
  - intros prefix gap h Hp Hgap Hh. apply G.
    rewrite (clean_hash_prefixed prefix _ Hp), (clean_hash_unprefixed h Hh), lower_app.
    rewrite <- separators_lower in Hgap.
    exact (sub_separators_insert "" _ _ Hgap).
  - intros prefix x gap y Hp Hgap. apply G.
    rewrite !(clean_hash_prefixed prefix _ Hp), !lower_app.
    rewrite <- separators_lower in Hgap.
    now apply sub_separators_insert.
  - intros x gap y Hgap Hxy. apply G.
    rewrite <- separators_lower in Hgap.
    rewrite (clean_hash_unprefixed (x ++ y) Hxy). rewrite lower_app in Hxy.
    rewrite clean_hash_unprefixed.
    + rewrite !lower_app. now apply sub_separators_insert.
    + rewrite !lower_app. now apply match_alternation_insert.
  - vm_compute. auto.
Qed.

(** The two inputs of the claim; a SHA-1 digest after its prefix, written in
    groups with hyphens, an underscore and a space; an MD5 digest with a
    hyphen, a colon and a tab in it. *)
Lemma C6_prefix_insensitive_witness :
  HashDetect.result_data "MD5:5d41402abc4b2a76b9719d911017c592" =
    HashDetect.result_data "5d41402abc4b2a76b9719d911017c592" /\
  HashDetect.result_data "SHA1: aaf4c61d-_ dcc5e8a2dabede0f3b482cd9aea9434d" =
    HashDetect.result_data "SHA1: aaf4c61ddcc5e8a2dabede0f3b482cd9aea9434d" /\
  HashDetect.result_data ("5d41402a" ++ String "-" (String ":" (String "009" "")) ++
                          "bc4b2a76b9719d911017c592") =
    HashDetect.result_data "5d41402abc4b2a76b9719d911017c592".
Proof.
  refine (conj _ (conj _ _)).
  - apply (proj1 C6_prefix_insensitive "MD5" ":" "5d41402abc4b2a76b9719d911017c592");
      [left |..]; reflexivity.
  - apply (proj1 (proj2 C6_prefix_insensitive)
             "SHA1" ": aaf4c61d" "-_ " "dcc5e8a2dabede0f3b482cd9aea9434d");
      [right; left |]; reflexivity.
  - apply (proj1 (proj2 (proj2 C6_prefix_insensitive))
             "5d41402a" (String "-" (String ":" (String "009" ""))) "bc4b2a76b9719d911017c592");
      reflexivity.
Defined.

(** C7 as stated fails: "md5abc" begins with the prefix "md5", which no colon
    or white space follows, yet the prefix is stripped and the normalized
    length is 3, not 6. *)
Lemma C7_counterexample :
  ~ (forall hash_input p rest : string,
       In p HashDetect.prefix_alternatives ->
       Py.lower hash_input = p ++ rest ->
       HashDetect.skip_colon_space rest = rest ->
       HashDetect.clean_hash hash_input = HashDetect.sub_separators (p ++ rest)).
Proof.
  intros H. specialize (H "md5abc" "md5" "abc").
  assert (E : HashDetect.clean_hash "md5abc" = "abc") by reflexivity.
  rewrite E in H. discriminate H; [left | |]; reflexivity.
Qed.

(** C7, amended: a recognized algorithm-name prefix at the start of the
    lower-cased input is always stripped, whatever follows it; the colons and
    white space that follow it go with it, and the normalized form is what the
    removal of the separators leaves of the rest, so the normalized length
    never includes the prefix. *)
Theorem C7_prefix_always_stripped (hash_input p rest : string) :
  In p HashDetect.prefix_alternatives ->
  Py.lower hash_input = p ++ rest ->
  HashDetect.sub_prefix (Py.lower hash_input) = HashDetect.skip_colon_space rest /\
  HashDetect.clean_hash hash_input = HashDetect.sub_separators rest.
Proof.
  intros Hp E. unfold HashDetect.clean_hash, HashDetect.sub_prefix.
  rewrite E, (match_alternation_prefix p rest Hp).
  split; [reflexivity | apply sub_separators_skip].
Qed.

(** "MD5abc": the prefix goes although no colon or white space follows. *)
Lemma C7_prefix_always_stripped_witness :
  HashDetect.sub_prefix (Py.lower "MD5abc") = "abc" /\
  HashDetect.clean_hash "MD5abc" = "abc".
Proof.
  apply (C7_prefix_always_stripped "MD5abc" "md5" "abc"); [left |]; reflexivity.
Defined.

(** C8 as stated fails: at length 40 (and at 64, 128 and 60) the curated Fact
    is the one the first candidate of the list gives. *)
Lemma C8_counterexample :
  ~ (forall n : nat, In n [32; 40; 64; 128; 60]%nat ->
       HashDetect.type_fact n <> HashDetect.first_candidate_fact n).
Proof.
  intros H. apply (H 40%nat); [right; left |]; reflexivity.
Qed.

(** C8, amended: the curated "most likely" Fact differs from the Fact of the
    rule "first candidate of the table's list" at length 32 and at no other
    length; at 40, 64, 128 and 60 the two are the same Fact. *)
Theorem C8_curated_differs_only_at_32 (n : nat) :
  HashDetect.type_fact n <> HashDetect.first_candidate_fact n <-> n = 32%nat.
Proof.
  split.
  - intros Hne. destruct (decide (n ∈ HashDetect.table_lengths)) as [Hin | Hout].
    + apply list_elem_of_In in Hin. unfold HashDetect.table_lengths in Hin. simpl in Hin.
      destruct Hin as [<-|[<-|[<-|[<-|[<-|[<-|[<-|[<-|[<-|[<-|[<-|[<-|[]]]]]]]]]]]]];
        solve [reflexivity | exfalso; apply Hne; reflexivity].
    + exfalso. apply Hne.
      unfold HashDetect.type_fact, HashDetect.first_candidate_fact, HashDetect.possible_types.
      now rewrite (hash_patterns_other n Hout).
  - intros ->. vm_compute. discriminate.
Qed.

(** C10: in the path without exception the list of Facts is never empty when
    the guard [if not nodes] is reached, so the "Unable to analyze hash"
    branch is not taken: what is printed is the envelope of the accumulated
    nodes. *)
Theorem C10_unable_branch_unreachable (hash_input : string) :
  HashDetect.accumulated_nodes hash_input <> [] /\
  HashDetect.try_body hash_input =
    Py.Returned {| Py.nodes := HashDetect.accumulated_nodes hash_input; Py.files := [] |} /\
  HashDetect.result_data hash_input <>
    {| Py.nodes := ["Unable to analyze hash: " ++ hash_input]; Py.files := [] |} /\
  HashDetect.main hash_input =
    Py.print_result
      {| Py.nodes := HashDetect.accumulated_nodes (Py.strip hash_input); Py.files := [] |}.
Proof.
  refine (conj _ (conj _ (conj _ _))); try reflexivity.
  - discriminate.
  - rewrite result_data_nodes. discriminate.
Qed.

(** ** Substrings and decimal numbers *)

Section RuntimeFacts.
Import Py.

Lemma startswith_app (needle post : string) : startswith needle (needle ++ post) = true.
Proof.
  induction needle as [|c needle IH]; simpl; [reflexivity |].
  now rewrite Ascii.eqb_refl, IH.
Qed.

Lemma contains_intro (needle s pre post : string) :
  s = pre ++ needle ++ post -> contains needle s = true.
Proof.
  intros ->. induction pre as [|c pre IH].
  - change ("" ++ needle ++ post) with (needle ++ post).
    destruct (needle ++ post) eqn:E; simpl; rewrite <- E, startswith_app; reflexivity.
  - change (String c pre ++ needle ++ post) with (String c (pre ++ needle ++ post)).
    simpl. rewrite IH. apply orb_true_r.
Qed.

Lemma str_int_inj (a b : Z) : str_int a = str_int b -> a = b.
Proof.
  unfold str_int. intros H. apply DecimalZ.to_int_inj.
  assert (E : NilEmpty.int_of_string (NilEmpty.string_of_int (Z.to_int a)) =
              NilEmpty.int_of_string (NilEmpty.string_of_int (Z.to_int b))) by now rewrite H.
  rewrite !NilEmpty.isi in E. now injection E.
Qed.

(** A file name determines its time stamp, the rest being the same. *)
Lemma name_inj (prefix domain : string) (a b : Z) :
  prefix ++ domain ++ "_" ++ str_int a ++ ".txt" =
  prefix ++ domain ++ "_" ++ str_int b ++ ".txt" -> a = b.
Proof.
  intros H. apply str_int_inj.
  do 2 apply StringFacts.app_inv_head in H.
  apply (StringFacts.app_inv_head "_") in H.
  now apply StringFacts.app_inv_tail in H.
Qed.

End RuntimeFacts.

Ltac contains_by pre post :=
  apply (contains_intro _ _ pre post);
  repeat rewrite StringFacts.app_assoc; rewrite ?StringFacts.app_nil_r; reflexivity.

(** ** dnsTransfer.py *)

(** C4: the zone-transfer module always yields an envelope with no nodes and
    exactly one file (no outcome of the command is left unhandled), and the
    three outcomes exclude one another: exit code 0 with non-empty output
    gives the name [zone_transfer_<target>_<time>.txt] and a content that
    embeds the raw output; a non-zero exit code or an empty output gives
    [zone_transfer_failed_...] and a content with the return code, the error
    output and the standard output; an exception gives [zone_transfer_error_...]
    and a content with the exception message.  For one target and one time the
    three names are different. *)
Theorem C4_zone_transfer_outcomes (domain : string) (w : DnsTransfer.world) :
  let ts := DnsTransfer.timestamp w in
  let out := DnsTransfer.result_data domain w in
  (exists file, out = {| Py.nodes := []; Py.files := [file] |} /\ Py.type file = "text") /\
  (forall result,
     DnsTransfer.subprocess_run w = Py.Returned result ->
     DnsTransfer.returncode result = 0%Z ->
     DnsTransfer.stdout result <> "" ->
     exists content,
       Py.files out =
         [ {| Py.name := "zone_transfer_" ++ domain ++ "_" ++ ts ++ ".txt";
              Py.content := content; Py.type := "text" |} ] /\
       Py.contains (DnsTransfer.stdout result) content = true) /\
  (forall result,
     DnsTransfer.subprocess_run w = Py.Returned result ->
     DnsTransfer.returncode result <> 0%Z \/ DnsTransfer.stdout result = "" ->
     exists content,
       Py.files out =
         [ {| Py.name := "zone_transfer_failed_" ++ domain ++ "_" ++ ts ++ ".txt";
              Py.content := content; Py.type := "text" |} ] /\
       Py.contains ("Return Code: " ++ Py.str_int (DnsTransfer.returncode result)) content = true /\
       Py.contains ("Error Output: " ++ DnsTransfer.stderr result) content = true /\
       Py.contains ("Standard Output: " ++ DnsTransfer.stdout result) content = true) /\
  (forall e,
     DnsTransfer.subprocess_run w = Py.Raised e ->
     exists content,
       Py.files out =
         [ {| Py.name := "zone_transfer_error_" ++ domain ++ "_" ++ ts ++ ".txt";
              Py.content := content; Py.type := "text" |} ] /\
       Py.contains ("Error: " ++ e) content = true) /\
  "zone_transfer_" ++ domain ++ "_" ++ ts ++ ".txt" <>
    "zone_transfer_failed_" ++ domain ++ "_" ++ ts ++ ".txt" /\
  "zone_transfer_" ++ domain ++ "_" ++ ts ++ ".txt" <>
    "zone_transfer_error_" ++ domain ++ "_" ++ ts ++ ".txt" /\
  "zone_transfer_failed_" ++ domain ++ "_" ++ ts ++ ".txt" <>
    "zone_transfer_error_" ++ domain ++ "_" ++ ts ++ ".txt".
Proof.
  cbv zeta. unfold DnsTransfer.result_data.
  refine (conj _ (conj _ (conj _ (conj _ (conj _ (conj _ _)))))).
  - destruct (DnsTransfer.subprocess_run w) as [e | result].
    + eexists; split; reflexivity.
    + destruct (_ && _); eexists; split; reflexivity.
  - intros result -> Hrc Hout. rewrite Hrc.
    destruct (DnsTransfer.stdout result) as [|c s] eqn:E; [congruence |].
    eexists; split; [reflexivity |].
    unfold DnsTransfer.report. rewrite E.
    match goal with |- Py.contains _ (?pre ++ _) = true => contains_by pre "" end.
  - intros result -> H.
    assert (G : (DnsTransfer.returncode result =? 0)%Z && Py.truthy_str (DnsTransfer.stdout result)
                = false).
    { destruct H as [H | H].
      - apply Z.eqb_neq in H. now rewrite H.
      - rewrite H. apply andb_false_r. }
    rewrite G. eexists; split; [reflexivity |].
    unfold DnsTransfer.failure_report.
    refine (conj _ (conj _ _)).
    + match goal with
      | |- Py.contains _ (((?pre ++ _) ++ ?p1) ++ ?p2) = true =>
          apply (contains_intro _ _ pre (Py.nl ++ p1 ++ p2))
      end.
      repeat rewrite StringFacts.app_assoc; reflexivity.
    + match goal with
      | |- Py.contains _ ((?pre ++ _) ++ ?p2) = true =>
          apply (contains_intro _ _ pre (Py.nl ++ p2))
      end.
      repeat rewrite StringFacts.app_assoc; reflexivity.
    + match goal with
      | |- Py.contains _ (?pre ++ _) = true =>
          apply (contains_intro _ _ pre Py.nl)
      end.
      repeat rewrite StringFacts.app_assoc; reflexivity.
  - intros e ->. eexists; split; [reflexivity |].
    unfold DnsTransfer.error_report.
    match goal with
    | |- Py.contains _ (?pre ++ _) = true => apply (contains_intro _ _ pre Py.nl)
    end.
    repeat rewrite StringFacts.app_assoc; reflexivity.
  - intros H. apply (f_equal String.length) in H.
    repeat (rewrite StringFacts.length_app in H; simpl in H). lia.
  - intros H. apply (f_equal String.length) in H.
    repeat (rewrite StringFacts.length_app in H; simpl in H). lia.
  - intros H. apply (f_equal String.length) in H.
    repeat (rewrite StringFacts.length_app in H; simpl in H). lia.
Qed.

(** The three outcomes on the sample runs of [dig]. *)
Lemma C4_zone_transfer_outcomes_witness :
  (exists content,
     Py.files (DnsTransfer.result_data "example.com" Samples.dig_ok) =
       [ {| Py.name := "zone_transfer_example.com_1700000000.txt";
            Py.content := content; Py.type := "text" |} ] /\
     Py.contains "example.com. 3600 IN SOA ns.example.com." content = true) /\
  (exists content,
     Py.files (DnsTransfer.result_data "example.com" Samples.dig_refused) =
       [ {| Py.name := "zone_transfer_failed_example.com_1700000000.txt";
            Py.content := content; Py.type := "text" |} ] /\
     Py.contains "Return Code: 9" content = true /\
     Py.contains "Error Output: couldn't get address" content = true /\
     Py.contains "Standard Output: " content = true) /\
  (exists content,
     Py.files (DnsTransfer.result_data "example.com" Samples.dig_missing) =
       [ {| Py.name := "zone_transfer_error_example.com_1700000000.txt";
            Py.content := content; Py.type := "text" |} ] /\
     Py.contains "Error: [Errno 2] No such file or directory: 'dig'" content = true).
Proof.
  refine (conj _ (conj _ _)).
  - refine (proj1 (proj2 (C4_zone_transfer_outcomes "example.com" Samples.dig_ok))
              _ eq_refl eq_refl _).
    discriminate.
  - refine (proj1 (proj2 (proj2 (C4_zone_transfer_outcomes "example.com" Samples.dig_refused)))
              _ eq_refl _).
    left. discriminate.
  - exact (proj1 (proj2 (proj2 (proj2
             (C4_zone_transfer_outcomes "example.com" Samples.dig_missing)))) _ eq_refl).
Defined.

(** ** domainreport.py *)

Section DomainReportFacts.
Import DomainReport.

Lemma scan_headers_cons (header value : string) (items : list (string * string)) (v : vars) :
  scan_headers ((header, value) :: items) v =
    if existsb (String.eqb (Py.lower header)) reported_headers then
      scan_headers items
        {| report_content := report_content v ++ (header ++ ": " ++ value ++ Py.nl);
           resolved_ip := resolved_ip v;
           ssl_issuer := ssl_issuer v;
           server_header :=
             if String.eqb (Py.lower header) "server" then Some value else server_header v |}
    else scan_headers items v.
Proof. reflexivity. Qed.

Lemma reported_server (header : string) :
  String.eqb (Py.lower header) "server" = true ->
  existsb (String.eqb (Py.lower header)) reported_headers = true.
Proof. intros E. unfold reported_headers. cbn [existsb]. now rewrite E. Qed.

(** The loop over the headers touches neither [resolved_ip] nor
    [ssl_issuer], and leaves in [server_header] the last [server] header. *)
Lemma scan_headers_vars (items : list (string * string)) (v : vars) :
  resolved_ip (scan_headers items v) = resolved_ip v /\
  ssl_issuer (scan_headers items v) = ssl_issuer v /\
  server_header (scan_headers items v) =
    match last_server items with
    | Some server => Some server
    | None => server_header v
    end.
Proof.
  revert v. induction items as [|[header value] items IH]; intros v.
  - auto.
  - rewrite scan_headers_cons. cbn [last_server].
    destruct (String.eqb (Py.lower header) "server") eqn:E.
    + rewrite (reported_server header E).
      match goal with |- context [scan_headers items ?v'] => destruct (IH v') as (H1 & H2 & H3) end.
      rewrite H1, H2, H3. cbn. destruct (last_server items); auto.
    + destruct (existsb _ _);
        match goal with |- context [scan_headers items ?v'] => destruct (IH v') as (H1 & H2 & H3) end;
        rewrite H1, H2, H3; cbn; destruct (last_server items); auto.
Qed.

(** What each probe does to the variables other than the report. *)
Lemma ssl_probe_vars (w : world) (v : vars) :
  resolved_ip (ssl_probe w v) = resolved_ip v /\
  ssl_issuer (ssl_probe w v) =
    match getpeercert w with
    | Py.Returned cert => extract_issuer cert (ssl_issuer v)
    | Py.Raised _ => ssl_issuer v
    end /\
  server_header (ssl_probe w v) = server_header v.
Proof. unfold ssl_probe. destruct (getpeercert w); auto. Qed.

Lemma dns_probe_vars (domain : string) (w : world) (v : vars) :
  resolved_ip (dns_probe domain w v) =
    match gethostbyname w with
    | Py.Returned ip => Some ip
    | Py.Raised _ => resolved_ip v
    end /\
  ssl_issuer (dns_probe domain w v) = ssl_issuer v /\
  server_header (dns_probe domain w v) = server_header v.
Proof. unfold dns_probe. destruct (gethostbyname w); auto. Qed.

Lemma http_probe_vars (w : world) (v : vars) :
  resolved_ip (http_probe w v) = resolved_ip v /\
  ssl_issuer (http_probe w v) = ssl_issuer v /\
  server_header (http_probe w v) =
    match requests_get w with
    | Py.Returned items =>
        match last_server items with
        | Some server => Some server
        | None => server_header v
        end
    | Py.Raised _ => server_header v
    end.
Proof.
  unfold http_probe. destruct (requests_get w) as [e | items]; [auto |].
  cbn [resolved_ip ssl_issuer server_header].
  match goal with
  | |- context [scan_headers items ?v'] => destruct (scan_headers_vars items v') as (H1 & H2 & H3)
  end.
  rewrite H1, H2, H3. auto.
Qed.

(** What the three probes leave in the variables. *)
Lemma run_probes_vars (domain : string) (w : world) :
  resolved_ip (run_probes domain w) =
    match gethostbyname w with Py.Returned ip => Some ip | Py.Raised _ => None end /\
  ssl_issuer (run_probes domain w) =
    match getpeercert w with
    | Py.Returned cert => extract_issuer cert None
    | Py.Raised _ => None
    end /\
  server_header (run_probes domain w) =
    match requests_get w with
    | Py.Returned items => last_server items
    | Py.Raised _ => None
    end.
Proof.
  unfold run_probes.
  assert (E1 : resolved_ip (initial domain) = None) by reflexivity.
  assert (E2 : ssl_issuer (initial domain) = None) by reflexivity.
  assert (E3 : server_header (initial domain) = None) by reflexivity.
  revert E1 E2 E3. generalize (initial domain). intros v0 E1 E2 E3.
  destruct (http_probe_vars w (dns_probe domain w (ssl_probe w v0))) as (H1 & H2 & H3).
  destruct (dns_probe_vars domain w (ssl_probe w v0)) as (D1 & D2 & D3).
  destruct (ssl_probe_vars w v0) as (S1 & S2 & S3).
  rewrite H1, H2, H3, D1, D2, D3, S1, S2, S3, E1, E2, E3.
  refine (conj eq_refl (conj eq_refl _)).
  destruct (requests_get w) as [e | items]; [reflexivity |].
  destruct (last_server items); reflexivity.
Qed.

End DomainReportFacts.

(** C3: when each of the three probes fails, the module still returns an
    envelope whose nodes are empty and whose files are exactly one artifact,
    and the content of that artifact has an error section for each probe. *)
Theorem C3_all_probes_fail (domain e_ssl e_dns e_http : string) (w : DomainReport.world) :
  DomainReport.getpeercert w = Py.Raised e_ssl ->
  DomainReport.gethostbyname w = Py.Raised e_dns ->
  DomainReport.requests_get w = Py.Raised e_http ->
  exists file,
    DomainReport.result_data domain w = {| Py.nodes := []; Py.files := [file] |} /\
    Py.type file = "text" /\
    Py.contains ("SSL Certificate Error: " ++ e_ssl ++ Py.nl ++ Py.nl) (Py.content file) = true /\
    Py.contains ("DNS Resolution Error: " ++ e_dns ++ Py.nl ++ Py.nl) (Py.content file) = true /\
    Py.contains ("HTTP Analysis Error: " ++ e_http ++ Py.nl ++ Py.nl) (Py.content file) = true /\
    DomainReport.main domain w =
      Py.print_result {| Py.nodes := []; Py.files := [file] |}.
Proof.
  intros Hssl Hdns Hhttp.
  unfold DomainReport.main, DomainReport.result_data, DomainReport.run_probes,
    DomainReport.http_probe, DomainReport.dns_probe, DomainReport.ssl_probe.
  rewrite Hssl, Hdns, Hhttp. cbn.
  eexists. refine (conj eq_refl (conj eq_refl (conj _ (conj _ (conj _ eq_refl))))); cbn.
  - match goal with
    | |- Py.contains _ ((((?pre ++ _) ++ ?p1) ++ ?p2) ++ ?p3) = true =>
        contains_by pre (p1 ++ p2 ++ p3)
    end.
  - match goal with
    | |- Py.contains _ (((?pre ++ _) ++ ?p2) ++ ?p3) = true => contains_by pre (p2 ++ p3)
    end.
  - match goal with
    | |- Py.contains _ ((?pre ++ _) ++ ?p3) = true => contains_by pre p3
    end.
Qed.

(** The unreachable host of the samples. *)
Lemma C3_all_probes_fail_witness :
  exists file,
    DomainReport.result_data "example.invalid" Samples.unreachable =
      {| Py.nodes := []; Py.files := [file] |} /\
    Py.type file = "text" /\
    Py.contains ("SSL Certificate Error: [Errno -2] Name or service not known" ++ Py.nl ++ Py.nl)
      (Py.content file) = true /\
    Py.contains ("DNS Resolution Error: [Errno -2] Name or service not known" ++ Py.nl ++ Py.nl)
      (Py.content file) = true /\
    Py.contains ("HTTP Analysis Error: Max retries exceeded" ++ Py.nl ++ Py.nl)
      (Py.content file) = true /\
    DomainReport.main "example.invalid" Samples.unreachable =
      Py.print_result {| Py.nodes := []; Py.files := [file] |}.
Proof.
  exact (C3_all_probes_fail "example.invalid" _ _ _ Samples.unreachable eq_refl eq_refl eq_refl).
Defined.

(** C5 as stated fails: with the SSL inspection and the DNS resolution both
    successful, the Fact of the DNS resolution, which ran second, comes first
    in the nodes, and the Fact of the SSL inspection does not precede it. *)
Lemma C5_counterexample :
  let nodes := Py.nodes (DomainReport.result_data "example.com" Samples.ssl_and_dns) in
  nodes = ["IP Address: 93.184.216.34"; "SSL Issuer: DigiCert Inc"] /\
  ~ DomainReport.precedes "SSL Issuer: DigiCert Inc" "IP Address: 93.184.216.34" nodes.
Proof.
  cbv zeta.
  assert (E : Py.nodes (DomainReport.result_data "example.com" Samples.ssl_and_dns) =
              ["IP Address: 93.184.216.34"; "SSL Issuer: DigiCert Inc"]) by (vm_compute; reflexivity).
  rewrite E. split; [reflexivity |].
  intros (i & j & Hi & Hj & Hlt).
  destruct i as [|[|i]]; simpl in Hi; try discriminate Hi.
  destruct j as [|[|j]]; simpl in Hj; try discriminate Hj; lia.
Qed.

(** C5, amended: the nodes come in a fixed order that is not the order of
    the probes: first the Fact of the DNS resolution (the probe that runs
    second), then the Fact of the SSL inspection (the probe that runs first),
    then the Fact of the HTTP header inspection; each is present when its
    probe returned a non-empty finding. *)
Theorem C5_nodes_order (domain : string) (w : DomainReport.world) :
  Py.nodes (DomainReport.result_data domain w) =
    (match DomainReport.gethostbyname w with
     | Py.Returned ip => if Py.truthy_str ip then [("IP Address: " ++ ip)%string] else []
     | Py.Raised _ => []
     end ++
     match DomainReport.getpeercert w with
     | Py.Returned cert =>
         match DomainReport.extract_issuer cert None with
         | Some issuer =>
             if Py.truthy issuer then [("SSL Issuer: " ++ Py.str issuer)%string] else []
         | None => []
         end
     | Py.Raised _ => []
     end ++
     match DomainReport.requests_get w with
     | Py.Returned items =>
         match DomainReport.last_server items with
         | Some server =>
             if Py.truthy_str server then [("Web Server: " ++ server)%string] else []
         | None => []
         end
     | Py.Raised _ => []
     end)%list.
Proof.
  unfold DomainReport.result_data, DomainReport.make_nodes. cbv zeta. cbn [Py.nodes].
  destruct (run_probes_vars domain w) as (H1 & H2 & H3). rewrite H1, H2, H3.
  destruct (DomainReport.gethostbyname w) as [e2 | ip];
    [| destruct (Py.truthy_str ip)];
    (destruct (DomainReport.getpeercert w) as [e1 | cert];
     [| destruct (DomainReport.extract_issuer cert None) as [issuer |];
        [destruct (Py.truthy issuer) |]]);
    (destruct (DomainReport.requests_get w) as [e3 | items];
     [| destruct (DomainReport.last_server items) as [server |];
        [destruct (Py.truthy_str server) |]]);
    reflexivity.
Qed.

(** ** File names *)

Section NameFacts.
Import Py.

Lemma has_char_app (c : ascii) (a b : string) :
  has_char c (a ++ b) = has_char c a || has_char c b.
Proof.
  induction a as [| x a IH]; simpl; [reflexivity |].
  now rewrite IH, orb_assoc.
Qed.

Lemma has_underscore_uint (d : Decimal.uint) :
  has_char "_" (NilEmpty.string_of_uint d) = false.
Proof. induction d; simpl; auto. Qed.

Lemma has_underscore_str_int (z : Z) : has_char "_" (str_int z) = false.
Proof.
  unfold str_int. destruct (Z.to_int z) as [d | d]; simpl; apply has_underscore_uint.
Qed.

(** A text is cut at its last underscore in one way only. *)
Lemma last_underscore (a b s s' : string) :
  has_char "_" s = false -> has_char "_" s' = false ->
  a ++ String "_" s = b ++ String "_" s' -> a = b /\ s = s'.
Proof.
  intros Hs Hs'. revert b. induction a as [| x a IH]; intros [| y b] E; simpl in E.
  - injection E as E. auto.
  - injection E as <- E. rewrite E, has_char_app in Hs. simpl in Hs.
    rewrite orb_true_r in Hs. discriminate Hs.
  - injection E as -> E. rewrite <- E, has_char_app in Hs'. simpl in Hs'.
    rewrite orb_true_r in Hs'. discriminate Hs'.
  - injection E as -> E. destruct (IH _ E) as [-> ->]. auto.
Qed.

(** A file name determines what precedes the target and its time stamp. *)
Lemma name_parts (p p' domain : string) (a b : Z) :
  p ++ domain ++ "_" ++ str_int a ++ ".txt" = p' ++ domain ++ "_" ++ str_int b ++ ".txt" ->
  p = p' /\ a = b.
Proof.
  intros E.
  assert (G : forall z, has_char "_" (str_int z ++ ".txt") = false)
    by (intros z; now rewrite has_char_app, has_underscore_str_int).
  assert (E' : (p ++ domain) ++ String "_" (str_int a ++ ".txt") =
               (p' ++ domain) ++ String "_" (str_int b ++ ".txt"))
    by (rewrite !StringFacts.app_assoc; exact E).
  destruct (last_underscore _ _ _ _ (G a) (G b) E') as [Hp Hs]. split.
  - exact (StringFacts.app_inv_tail _ _ _ Hp).
  - exact (str_int_inj _ _ (StringFacts.app_inv_tail _ _ _ Hs)).
Qed.

(** Names with different time stamps differ, whatever their prefixes. *)
Lemma name_stamp (p p' domain : string) (a b : Z) :
  p ++ domain ++ "_" ++ str_int a ++ ".txt" = p' ++ domain ++ "_" ++ str_int b ++ ".txt" ->
  a = b.
Proof. intros E. exact (proj2 (name_parts _ _ _ _ _ E)). Qed.

Lemma variant_prefix_inj (v v' : DnsTransfer.variant) :
  DnsTransfer.variant_prefix v = DnsTransfer.variant_prefix v' -> v = v'.
Proof. destruct v, v'; simpl; intros H; try reflexivity; discriminate H. Qed.

(** The name of the one file of a zone-transfer run. *)
Lemma dns_name_variant (domain : string) (w : DnsTransfer.world) :
  List.map name (files (DnsTransfer.result_data domain w)) =
    [DnsTransfer.variant_prefix (DnsTransfer.variant_of w) ++ domain ++ "_" ++
     str_int (int_of_float (DnsTransfer.time_time w)) ++ ".txt"].
Proof.
  unfold DnsTransfer.result_data, DnsTransfer.variant_of, DnsTransfer.timestamp.
  destruct (DnsTransfer.subprocess_run w) as [e | result]; [| destruct (_ && _)]; reflexivity.
Qed.

End NameFacts.

(** C9 as stated fails: two runs against the same target whose clocks read
    different instants of the same second get the same file name. *)
Lemma C9_counterexample :
  ~ (forall (domain : string) (w1 w2 : DnsTransfer.world),
       ~ (DnsTransfer.time_time w1 == DnsTransfer.time_time w2)%Q ->
       List.map Py.name (Py.files (DnsTransfer.result_data domain w1)) <>
       List.map Py.name (Py.files (DnsTransfer.result_data domain w2))).
Proof.
  intros H.
  apply (H "example.com" Samples.dig_missing Samples.dig_missing_later); [| reflexivity].
  unfold Qeq. simpl. discriminate.
Qed.

(** C9, amended: file names are built as
    [<module-prefix>_<target>_<unix-timestamp>.txt], the prefix being
    [zone_transfer], [zone_transfer_failed], [zone_transfer_error] or
    [domain_intel] and the time stamp the clock reading truncated to whole
    seconds; two runs against the same target that produce the same report
    variant get different names exactly when their whole-second time stamps
    differ (and two runs that produce different variants never share a
    name). *)
Theorem C9_names_by_second (domain : string) :
  (forall w : DnsTransfer.world,
     exists variant,
       In variant ["zone_transfer_"; "zone_transfer_failed_"; "zone_transfer_error_"] /\
       List.map Py.name (Py.files (DnsTransfer.result_data domain w)) =
         [variant ++ domain ++ "_" ++
          Py.str_int (Py.int_of_float (DnsTransfer.time_time w)) ++ ".txt"]) /\
  (forall w : DomainReport.world,
     List.map Py.name (Py.files (DomainReport.result_data domain w)) =
       ["domain_intel_" ++ domain ++ "_" ++
        Py.str_int (Py.int_of_float (DomainReport.posix (DomainReport.now_named w))) ++ ".txt"]) /\
  (forall w1 w2 : DnsTransfer.world,
     DnsTransfer.variant_of w1 = DnsTransfer.variant_of w2 ->
     (List.map Py.name (Py.files (DnsTransfer.result_data domain w1)) =
      List.map Py.name (Py.files (DnsTransfer.result_data domain w2)) <->
      Py.int_of_float (DnsTransfer.time_time w1) = Py.int_of_float (DnsTransfer.time_time w2))) /\
  (forall w1 w2 : DnsTransfer.world,
     DnsTransfer.variant_of w1 <> DnsTransfer.variant_of w2 ->
     List.map Py.name (Py.files (DnsTransfer.result_data domain w1)) <>
     List.map Py.name (Py.files (DnsTransfer.result_data domain w2))) /\
  (forall w1 w2 : DomainReport.world,
     List.map Py.name (Py.files (DomainReport.result_data domain w1)) =
     List.map Py.name (Py.files (DomainReport.result_data domain w2)) <->
     Py.int_of_float (DomainReport.posix (DomainReport.now_named w1)) =
     Py.int_of_float (DomainReport.posix (DomainReport.now_named w2))).
Proof.
  refine (conj _ (conj _ (conj _ (conj _ _)))).
  - intros w. unfold DnsTransfer.result_data, DnsTransfer.timestamp.
    destruct (DnsTransfer.subprocess_run w) as [e | result]; [| destruct (_ && _)].
    + exists "zone_transfer_error_". split; [right; right; left |]; reflexivity.
    + exists "zone_transfer_". split; [left |]; reflexivity.
    + exists "zone_transfer_failed_". split; [right; left |]; reflexivity.
  - intros w. reflexivity.
  - intros w1 w2 E. rewrite !dns_name_variant, E.
    split; intros H; [injection H as H; exact (name_stamp _ _ domain _ _ H) | now rewrite H].
  - intros w1 w2 Hne H. rewrite !dns_name_variant in H. injection H as H.
    apply Hne, variant_prefix_inj. exact (proj1 (name_parts _ _ domain _ _ H)).
  - intros w1 w2. unfold DomainReport.result_data. cbn [Py.files Py.name List.map].
    split; intros H; [injection H as H; exact (name_inj "" domain _ _ H) | now rewrite H].
Qed.

(** Two runs in which [dig] fails in different ways, with different exit
    codes and messages, within one second: both write the report of a
    failure, and they share their file name. *)
Lemma C9_names_by_second_witness :
  let refused : DnsTransfer.world :=
    {| DnsTransfer.subprocess_run :=
         Py.Returned {| DnsTransfer.returncode := 9;
                        DnsTransfer.stdout := EmptyString;
                        DnsTransfer.stderr := "couldn't get address" |};
       DnsTransfer.time_time := 1700000000.25%Q |} in
  let timed_out : DnsTransfer.world :=
    {| DnsTransfer.subprocess_run :=
         Py.Returned {| DnsTransfer.returncode := 1;
                        DnsTransfer.stdout := EmptyString;
                        DnsTransfer.stderr := ";; communications error: timed out" |};
       DnsTransfer.time_time := 1700000000.75%Q |} in
  List.map Py.name (Py.files (DnsTransfer.result_data "example.com" refused)) =
  List.map Py.name (Py.files (DnsTransfer.result_data "example.com" timed_out)).
Proof.
  intros refused timed_out.
  apply (proj1 (proj2 (proj2 (C9_names_by_second "example.com")))
           refused timed_out eq_refl).
  reflexivity.
Defined.

(** ** The printed line and its reader *)

Section ReaderFacts.
Import Py Reader.

(** Induction on a JSON value, with the values nested in it. *)
Lemma json_nested_ind (P : json -> Prop)
  (HStr : forall s, P (JStr s))
  (HArr : forall items, Forall P items -> P (JArr items))
  (HObj : forall members, Forall (fun kv => P (snd kv)) members -> P (JObj members)) :
  forall v, P v.
Proof.
  fix IH 1. intros [s | items | members].
  - apply HStr.
  - apply HArr. induction items as [| x items IHitems]; constructor; [apply IH | exact IHitems].
  - apply HObj. induction members as [| [k x] members IHmembers]; constructor;
      [apply IH | exact IHmembers].
Qed.

(** *** No line feed inside the line *)

Lemma count_lines_app (a b : string) :
  count_lines (a ++ b) = (count_lines a + count_lines b)%nat.
Proof.
  induction a as [| c a IH]; simpl; [reflexivity |].
  destruct (Ascii.eqb c LF); simpl; now rewrite IH.
Qed.

Lemma count_lines_escape_char (c : ascii) : count_lines (escape_char c) = 0%nat.
Proof. destruct c as [[] [] [] [] [] [] [] []]; reflexivity. Qed.

Lemma count_lines_escape (s : string) : count_lines (escape s) = 0%nat.
Proof.
  induction s as [| c s IH]; simpl; [reflexivity |].
  now rewrite count_lines_app, count_lines_escape_char, IH.
Qed.

Lemma count_lines_dumps_str (s : string) : count_lines (dumps_str s) = 0%nat.
Proof.
  unfold dumps_str.
  change (String DQUOTE (escape s) ++ String DQUOTE "")
    with (String DQUOTE (escape s ++ String DQUOTE "")).
  simpl. now rewrite count_lines_app, count_lines_escape.
Qed.

Lemma count_lines_join (parts : list string) :
  Forall (fun p => count_lines p = 0%nat) parts -> count_lines (join ", " parts) = 0%nat.
Proof.
  induction 1 as [| p parts Hp Hparts IH]; [reflexivity |].
  destruct parts as [| q parts]; [exact Hp |].
  change (join ", " (p :: q :: parts)) with (p ++ ", " ++ join ", " (q :: parts)).
  now rewrite !count_lines_app, Hp, IH.
Qed.

Lemma count_lines_dumps (v : json) : count_lines (dumps v) = 0%nat.
Proof.
  induction v as [s | items IH | members IH] using json_nested_ind.
  - apply count_lines_dumps_str.
  - change (dumps (JArr items)) with ("[" ++ join ", " (List.map dumps items) ++ "]").
    rewrite !count_lines_app, count_lines_join; [reflexivity |].
    induction IH; constructor; auto.
  - change (dumps (JObj members))
      with ("{" ++ join ", " (List.map (fun kv => dumps_str (fst kv) ++ ": " ++ dumps (snd kv))
                                        members) ++ "}").
    rewrite !count_lines_app, count_lines_join; [reflexivity |].
    induction IH as [| [k x] members Hx Hmembers IHm]; constructor; auto.
    cbn [fst snd] in *. now rewrite !count_lines_app, count_lines_dumps_str, Hx.
Qed.

(** *** Reading back a string *)

Lemma scanstring_escape_char (c : ascii) (t : string) :
  scanstring (escape_char c ++ t) = push c (scanstring t).
Proof. destruct c as [[] [] [] [] [] [] [] []]; reflexivity. Qed.

Lemma scanstring_escape (s rest : string) :
  scanstring (escape s ++ String DQUOTE rest) = Some (s, rest).
Proof.
  induction s as [| c s IH].
  - reflexivity.
  - change (escape (String c s)) with (escape_char c ++ escape s).
    now rewrite StringFacts.app_assoc, scanstring_escape_char, IH.
Qed.

Lemma dumps_str_app (s rest : string) :
  dumps_str s ++ rest = String DQUOTE (escape s ++ String DQUOTE rest).
Proof.
  unfold dumps_str.
  change (String DQUOTE (escape s) ++ String DQUOTE "")
    with (String DQUOTE (escape s ++ String DQUOTE "")).
  change (String DQUOTE (escape s ++ String DQUOTE "") ++ rest)
    with (String DQUOTE ((escape s ++ String DQUOTE "") ++ rest)).
  now rewrite StringFacts.app_assoc.
Qed.

(** *** How a printed value starts *)

Lemma opens_app (s rest : string) : opens s -> opens (s ++ rest).
Proof. intros (c & t & -> & H). exists c, (t ++ rest). auto. Qed.

Lemma opens_skip_ws (s : string) : opens s -> skip_ws s = s.
Proof. intros (c & t & -> & H & _). simpl. now rewrite H. Qed.

Lemma opens_dumps_str (s : string) : opens (dumps_str s).
Proof. eexists _, _. split; [reflexivity | auto]. Qed.

Lemma opens_dumps (v : json) : opens (dumps v).
Proof.
  destruct v as [s | items | members].
  - apply opens_dumps_str.
  - eexists _, _. split; [reflexivity | auto].
  - eexists _, _. split; [reflexivity | auto].
Qed.

End ReaderFacts.

Section RoundTrip.
Import Py Reader.

Lemma parse_items_step (fuel : nat) (s : string) :
  parse_items (S fuel) s =
    match parse_value fuel s with
    | None => None
    | Some (v, rest) =>
        match skip_ws rest with
        | EmptyString => None
        | String c rest' =>
            if Ascii.eqb c "," then
              match parse_items fuel (skip_ws rest') with
              | Some (vs, rest'') => Some (v :: vs, rest'')
              | None => None
              end
            else if Ascii.eqb c "]" then Some ([v], rest')
            else None
        end
    end.
Proof. reflexivity. Qed.

Lemma parse_members_step (fuel : nat) (key rest : string) :
  parse_members (S fuel) (dumps_str key ++ rest) =
    match skip_ws rest with
    | EmptyString => None
    | String colon rest1 =>
        if Ascii.eqb colon ":" then
          match parse_value fuel (skip_ws rest1) with
          | None => None
          | Some (v, rest2) =>
              match skip_ws rest2 with
              | EmptyString => None
              | String c rest3 =>
                  if Ascii.eqb c "," then
                    match parse_members fuel (skip_ws rest3) with
                    | Some (ms, rest4) => Some ((key, v) :: ms, rest4)
                    | None => None
                    end
                  else if Ascii.eqb c "}" then Some ([(key, v)], rest3)
                  else None
              end
          end
        else None
    end.
Proof.
  rewrite dumps_str_app.
  change (parse_members (S fuel) (String DQUOTE (escape key ++ String DQUOTE rest)))
    with (match scanstring (escape key ++ String DQUOTE rest) with
          | None => None
          | Some (key, rest) =>
              match skip_ws rest with
              | EmptyString => None
              | String colon rest1 =>
                  if Ascii.eqb colon ":" then
                    match parse_value fuel (skip_ws rest1) with
                    | None => None
                    | Some (v, rest2) =>
                        match skip_ws rest2 with
                        | EmptyString => None
                        | String c rest3 =>
                            if Ascii.eqb c "," then
                              match parse_members fuel (skip_ws rest3) with
                              | Some (ms, rest4) => Some ((key, v) :: ms, rest4)
                              | None => None
                              end
                            else if Ascii.eqb c "}" then Some ([(key, v)], rest3)
                            else None
                        end
                    end
                  else None
              end
          end).
  now rewrite scanstring_escape.
Qed.

Lemma opens_join_items (x : json) (items : list json) :
  opens (join ", " (List.map dumps (x :: items))).
Proof.
  destruct items as [| y items]; [apply opens_dumps |].
  change (join ", " (List.map dumps (x :: y :: items)))
    with (dumps x ++ ", " ++ join ", " (List.map dumps (y :: items))).
  apply opens_app, opens_dumps.
Qed.

Lemma opens_join_members (m : string * json) (members : list (string * json)) :
  opens (join ", " (List.map member_text (m :: members))).
Proof.
  destruct members as [| m' members]; [apply opens_app, opens_dumps_str |].
  change (join ", " (List.map member_text (m :: m' :: members)))
    with (member_text m ++ ", " ++ join ", " (List.map member_text (m' :: members))).
  apply opens_app, opens_app, opens_dumps_str.
Qed.

(** The items of an array, up to its closing bracket. *)
Lemma parse_items_dumps (x : json) (items : list json) :
  Forall reads_back (x :: items) ->
  forall (fuel : nat) (rest : string),
    (String.length (join ", " (List.map dumps (x :: items))) + 1 <= fuel)%nat ->
    parse_items fuel (join ", " (List.map dumps (x :: items)) ++ String "]" rest) =
      Some (x :: items, rest).
Proof.
  revert x. induction items as [| y items IH]; intros x H fuel rest Hfuel.
  - apply Forall_cons_1 in H as [Hx _].
    change (join ", " (List.map dumps [x])) with (dumps x) in *.
    destruct fuel as [| fuel]; [lia |].
    rewrite parse_items_step, (Hx fuel (String "]" rest) ltac:(lia)). reflexivity.
  - apply Forall_cons_1 in H as [Hx H].
    change (join ", " (List.map dumps (x :: y :: items)))
      with (dumps x ++ ", " ++ join ", " (List.map dumps (y :: items))) in *.
    rewrite !StringFacts.length_app in Hfuel.
    destruct fuel as [| fuel]; [lia |].
    rewrite !StringFacts.app_assoc, parse_items_step, (Hx fuel _ ltac:(lia)).
    change (skip_ws (", " ++ join ", " (List.map dumps (y :: items)) ++ String "]" rest))
      with (", " ++ join ", " (List.map dumps (y :: items)) ++ String "]" rest).
    change (", " ++ join ", " (List.map dumps (y :: items)) ++ String "]" rest)
      with (String "," (String " " (join ", " (List.map dumps (y :: items)) ++ String "]" rest))).
    cbv iota beta.
    change (Ascii.eqb "," ",") with true. cbv iota.
    change (skip_ws (String " " (join ", " (List.map dumps (y :: items)) ++ String "]" rest)))
      with (skip_ws (join ", " (List.map dumps (y :: items)) ++ String "]" rest)).
    rewrite (opens_skip_ws _ (opens_app _ _ (opens_join_items y items))).
    rewrite (IH y H fuel rest) by (change (String.length ", ") with 2%nat in Hfuel; lia).
    reflexivity.
Qed.

(** The members of an object, up to its closing brace. *)
Lemma parse_members_dumps (m : string * json) (members : list (string * json)) :
  Forall (fun kv => reads_back (snd kv)) (m :: members) ->
  forall (fuel : nat) (rest : string),
    (String.length (join ", " (List.map member_text (m :: members))) + 1 <= fuel)%nat ->
    parse_members fuel (join ", " (List.map member_text (m :: members)) ++ String "}" rest) =
      Some (m :: members, rest).
Proof.
  revert m. induction members as [| m' members IH]; intros [k v] H fuel rest Hfuel.
  - apply Forall_cons_1 in H as [Hv _]. cbn [snd] in Hv.
    change (join ", " (List.map member_text [(k, v)]))
      with (dumps_str k ++ ": " ++ dumps v) in *.
    rewrite !StringFacts.length_app in Hfuel.
    change (String.length ": ") with 2%nat in Hfuel.
    destruct fuel as [| fuel]; [lia |].
    rewrite !StringFacts.app_assoc, parse_members_step.
    change (skip_ws (": " ++ dumps v ++ String "}" rest))
      with (String ":" (String " " (dumps v ++ String "}" rest))).
    cbv iota beta. change (Ascii.eqb ":" ":") with true. cbv iota.
    change (skip_ws (String " " (dumps v ++ String "}" rest)))
      with (skip_ws (dumps v ++ String "}" rest)).
    rewrite (opens_skip_ws _ (opens_app _ _ (opens_dumps v))).
    rewrite (Hv fuel _ ltac:(lia)). reflexivity.
  - apply Forall_cons_1 in H as [Hv H]. cbn [snd] in Hv.
    change (join ", " (List.map member_text ((k, v) :: m' :: members)))
      with ((dumps_str k ++ ": " ++ dumps v) ++ ", " ++
            join ", " (List.map member_text (m' :: members))) in *.
    rewrite !StringFacts.length_app in Hfuel.
    change (String.length ": ") with 2%nat in Hfuel.
    change (String.length ", ") with 2%nat in Hfuel.
    destruct fuel as [| fuel]; [lia |].
    rewrite !StringFacts.app_assoc, parse_members_step.
    match goal with
    | |- context [skip_ws (": " ++ ?t)] =>
        change (skip_ws (": " ++ t)) with (String ":" (String " " t));
        cbv iota beta; change (Ascii.eqb ":" ":") with true; cbv iota;
        change (skip_ws (String " " t)) with (skip_ws t)
    end.
    rewrite (opens_skip_ws _ (opens_app _ _ (opens_dumps v))).
    rewrite (Hv fuel _ ltac:(lia)).
    match goal with
    | |- context [skip_ws (", " ++ ?t)] =>
        change (skip_ws (", " ++ t)) with (String "," (String " " t));
        cbv iota beta; change (Ascii.eqb "," ",") with true; cbv iota;
        change (skip_ws (String " " t)) with (skip_ws t)
    end.
    rewrite (opens_skip_ws _ (opens_app _ _ (opens_join_members m' members))).
    rewrite (IH m' H fuel rest) by lia.
    reflexivity.
Qed.

Lemma parse_value_str (fuel : nat) (s rest : string) :
  parse_value (S fuel) (dumps_str s ++ rest) = Some (JStr s, rest).
Proof.
  rewrite dumps_str_app.
  change (parse_value (S fuel) (String DQUOTE (escape s ++ String DQUOTE rest)))
    with (match scanstring (escape s ++ String DQUOTE rest) with
          | Some (str, rest) => Some (JStr str, rest)
          | None => None
          end).
  now rewrite scanstring_escape.
Qed.

Lemma parse_value_arr (fuel : nat) (s : string) :
  opens s ->
  parse_value (S fuel) (String "[" s) =
    match parse_items fuel s with
    | Some (items, rest) => Some (JArr items, rest)
    | None => None
    end.
Proof.
  intros (c & t & -> & Hws & Hbracket & _).
  change (parse_value (S fuel) (String "[" (String c t)))
    with (match skip_ws (String c t) with
          | EmptyString => None
          | String c' rest' as s'' =>
              if Ascii.eqb c' "]" then Some (JArr [], rest')
              else
                match parse_items fuel s'' with
                | Some (items, rest) => Some (JArr items, rest)
                | None => None
                end
          end).
  cbn [skip_ws]. now rewrite Hws, Hbracket.
Qed.

Lemma parse_value_obj (fuel : nat) (s : string) :
  opens s ->
  parse_value (S fuel) (String "{" s) =
    match parse_members fuel s with
    | Some (members, rest) => Some (JObj members, rest)
    | None => None
    end.
Proof.
  intros (c & t & -> & Hws & _ & Hbrace).
  change (parse_value (S fuel) (String "{" (String c t)))
    with (match skip_ws (String c t) with
          | EmptyString => None
          | String c' rest' as s'' =>
              if Ascii.eqb c' "}" then Some (JObj [], rest')
              else
                match parse_members fuel s'' with
                | Some (members, rest) => Some (JObj members, rest)
                | None => None
                end
          end).
  cbn [skip_ws]. now rewrite Hws, Hbrace.
Qed.

(** Every value is read back from the text [dumps] gives it. *)
Lemma reads_back_all (v : json) : reads_back v.
Proof.
  induction v as [s | items IH | members IH] using json_nested_ind; intros fuel rest Hfuel.
  - change (dumps (JStr s)) with (dumps_str s) in *.
    destruct fuel as [| fuel]; [| apply parse_value_str].
    rewrite <- (StringFacts.app_nil_r (dumps_str s)), dumps_str_app in Hfuel.
    simpl in Hfuel. lia.
  - destruct items as [| x items].
    + destruct fuel as [| fuel]; [simpl in Hfuel; lia | reflexivity].
    + change (dumps (JArr (x :: items)))
        with (String "[" (join ", " (List.map dumps (x :: items)) ++ "]")) in *.
      destruct fuel as [| fuel]; [simpl in Hfuel; lia |].
      change (String "[" (join ", " (List.map dumps (x :: items)) ++ "]") ++ rest)
        with (String "[" ((join ", " (List.map dumps (x :: items)) ++ "]") ++ rest)).
      rewrite StringFacts.app_assoc.
      change ("]" ++ rest) with (String "]" rest).
      rewrite parse_value_arr by apply opens_app, opens_join_items.
      rewrite (parse_items_dumps x items IH fuel rest); [reflexivity |].
      cbn [String.length] in Hfuel. rewrite StringFacts.length_app in Hfuel.
      change (String.length "]") with 1%nat in Hfuel. lia.
  - destruct members as [| m members].
    + destruct fuel as [| fuel]; [simpl in Hfuel; lia | reflexivity].
    + change (dumps (JObj (m :: members)))
        with (String "{" (join ", " (List.map member_text (m :: members)) ++ "}")) in *.
      destruct fuel as [| fuel]; [simpl in Hfuel; lia |].
      change (String "{" (join ", " (List.map member_text (m :: members)) ++ "}") ++ rest)
        with (String "{" ((join ", " (List.map member_text (m :: members)) ++ "}") ++ rest)).
      rewrite StringFacts.app_assoc.
      change ("}" ++ rest) with (String "}" rest).
      rewrite parse_value_obj by apply opens_app, opens_join_members.
      rewrite (parse_members_dumps m members IH fuel rest); [reflexivity |].
      cbn [String.length] in Hfuel. rewrite StringFacts.length_app in Hfuel.
      change (String.length "}") with 1%nat in Hfuel. lia.
Qed.

(** [json.loads] undoes [json.dumps] on a printed line. *)
Lemma loads_print (v : json) : loads (print (dumps v)) = Some v.
Proof.
  unfold loads, print.
  rewrite (opens_skip_ws _ (opens_app _ _ (opens_dumps v))).
  rewrite (reads_back_all v) by (rewrite StringFacts.length_app; lia).
  reflexivity.
Qed.

Lemma strings_of_json_map (l : list string) : strings_of_json (List.map JStr l) = Some l.
Proof. induction l as [| s l IH]; simpl; [reflexivity | now rewrite IH]. Qed.

Lemma file_of_json_of_file (f : FileArtifact) : file_of_json (json_of_file f) = Some f.
Proof. destruct f. reflexivity. Qed.

Lemma files_of_json_map (l : list FileArtifact) :
  files_of_json (List.map json_of_file l) = Some l.
Proof.
  induction l as [| f l IH]; [reflexivity |].
  cbn [List.map files_of_json]. now rewrite file_of_json_of_file, IH.
Qed.

Lemma envelope_of_json_arrays (ns fs : list json) :
  envelope_of_json (JObj [("nodes", JArr ns); ("files", JArr fs)]) =
    match strings_of_json ns, files_of_json fs with
    | Some nodes, Some files => Some {| nodes := nodes; files := files |}
    | _, _ => None
    end.
Proof. reflexivity. Qed.

Lemma envelope_of_json_of_envelope (e : ResultEnvelope) :
  envelope_of_json (json_of_envelope e) = Some e.
Proof.
  destruct e as [ns fs]. unfold json_of_envelope. cbn [nodes files].
  now rewrite envelope_of_json_arrays, strings_of_json_map, files_of_json_map.
Qed.

(** What is printed is one line, and the tool reads the envelope back from it. *)
Lemma read_output_print_result (e : ResultEnvelope) :
  count_lines (print_result e) = 1%nat /\
  read_output (print_result e) = Some e.
Proof.
  assert (E : count_lines (print_result e) = 1%nat).
  { unfold print_result, print. now rewrite count_lines_app, count_lines_dumps. }
  split; [exact E |].
  unfold read_output. rewrite E. unfold print_result.
  now rewrite loads_print, envelope_of_json_of_envelope.
Qed.

End RoundTrip.

Lemma one_envelope_line_print_result (e : Py.ResultEnvelope) :
  Reader.one_envelope_line (Py.print_result e) e.
Proof.
  destruct (read_output_print_result e) as [Hcount Hread].
  refine (conj _ (conj Hcount Hread)).
  exists (Py.dumps (Py.json_of_envelope e)). split; [reflexivity | apply count_lines_dumps].
Qed.

(** C1: for every target and whatever the probes, the command and the
    clock answer, each of the three modules writes exactly one line to the
    standard output (one [print], on the paths of success and of error
    alike), and the line parses into the envelope of the run: a list of
    strings [nodes] and a list [files] of name, content and type. *)
Theorem C1_one_json_line (argv1 domain : string)
    (wz : DnsTransfer.world) (wd : DomainReport.world) :
  Reader.one_envelope_line (HashDetect.main argv1) (HashDetect.result_data (Py.strip argv1)) /\
  Reader.one_envelope_line (DnsTransfer.main domain wz) (DnsTransfer.result_data domain wz) /\
  Reader.one_envelope_line (DomainReport.main domain wd) (DomainReport.result_data domain wd).
Proof.
  refine (conj _ (conj _ _)); apply one_envelope_line_print_result.
Qed.

(** ** testScript.py *)

Section TestScriptFacts.
Import TestScript.

Lemma decode_entry_entry (c : ascii) : decode_entry (entry c) = Some c.
Proof. destruct c as [[] [] [] [] [] [] [] []]; reflexivity. Qed.

Lemma text_to_binary_lookup (text : string) (i : nat) :
  text_to_binary text !! i = option_map entry (String.get i text).
Proof.
  revert i. induction text as [| c text IH]; intros [| i]; simpl; auto.
Qed.

Lemma text_to_binary_length (text : string) :
  length (text_to_binary text) = String.length text.
Proof. induction text as [| c text IH]; simpl; [reflexivity | now rewrite IH]. Qed.

Lemma int_base2_app (acc : N) (a b : string) :
  int_base2 acc (a ++ b) =
    match int_base2 acc a with
    | Some x => int_base2 x b
    | None => None
    end.
Proof.
  revert acc. induction a as [| d a IH]; intros acc; simpl; [reflexivity |].
  destruct (Ascii.eqb d "0"); [apply IH |].
  destruct (Ascii.eqb d "1"); [apply IH | reflexivity].
Qed.

(** The digits of [format(n, 'b')] are read back as [n]. *)
Lemma int_base2_bin_pos (p : positive) : int_base2 0 (bin_pos p) = Some (Npos p).
Proof.
  induction p as [p IH | p IH |]; simpl; [| | reflexivity];
    rewrite int_base2_app, IH; reflexivity.
Qed.

Lemma int_base2_zeros (k : nat) (digits : string) :
  int_base2 0 (Py.repeat_char "0" k ++ digits) = int_base2 0 digits.
Proof. induction k as [| k IH]; simpl; [reflexivity | exact IH]. Qed.

Lemma int_base2_format_08b (n : N) : int_base2 0 (format_08b n) = Some n.
Proof.
  unfold format_08b, Py.zfill. rewrite int_base2_zeros.
  destruct n as [| p]; [reflexivity | apply int_base2_bin_pos].
Qed.

Lemma length_repeat_char (c : ascii) (k : nat) : String.length (Py.repeat_char c k) = k.
Proof. induction k as [| k IH]; simpl; [reflexivity | now rewrite IH]. Qed.

(** [format(n, 'b')] has as many digits as [n] has bits. *)
Lemma bin_pos_bounds (p : positive) :
  (2 ^ N.of_nat (String.length (bin_pos p)) <= 2 * Npos p /\
   Npos p < 2 ^ N.of_nat (String.length (bin_pos p)))%N.
Proof.
  induction p as [p IH | p IH |]; simpl bin_pos.
  - rewrite StringFacts.length_app, Nat.add_1_r, Nat2N.inj_succ, N.pow_succ_r'.
    simpl String.length. lia.
  - rewrite StringFacts.length_app, Nat.add_1_r, Nat2N.inj_succ, N.pow_succ_r'.
    simpl String.length. lia.
  - simpl. lia.
Qed.

Lemma length_format_08b (n : N) :
  (8 <= String.length (format_08b n))%nat /\
  ((n < 256)%N -> String.length (format_08b n) = 8%nat) /\
  ((256 <= n)%N -> (8 < String.length (format_08b n))%nat).
Proof.
  unfold format_08b, Py.zfill. rewrite StringFacts.length_app, length_repeat_char.
  destruct n as [| p]; [simpl; lia |].
  destruct (bin_pos_bounds p) as [Hlow Hhigh]. simpl format_b.
  set (k := String.length (bin_pos p)) in *. clearbody k.
  refine (conj _ (conj _ _)); [lia | |].
  - intros Hn. assert (Hk : (N.of_nat k < 9)%N).
    { apply (N.pow_lt_mono_r_iff 2); [lia |]. change (2 ^ 9)%N with 512%N. lia. }
    lia.
  - intros Hn. assert (Hk : (8 < N.of_nat k)%N).
    { apply (N.pow_lt_mono_r_iff 2); [lia |]. change (2 ^ 8)%N with 256%N. lia. }
    lia.
Qed.

End TestScriptFacts.

(** X1: [text_to_binary] gives one entry per character of the text, in
    order; the entry of a character is the character, [" = "], and the binary
    digits of its code point as [format(ord(c), '08b')] writes them.  For
    every code point these digits are the code point in base 2, padded with
    zeros to eight digits: there are exactly eight of them for a code point
    below 256 and more than eight from 256 on. *)
Theorem X1_text_to_binary_entries (text : string) :
  length (TestScript.text_to_binary text) = String.length text /\
  (forall (i : nat) (c : ascii),
     String.get i text = Some c ->
     TestScript.text_to_binary text !! i =
       Some (String c (" = " ++ TestScript.format_08b (Py.ord c)))) /\
  (forall code : N,
     let digits := TestScript.format_08b code in
     TestScript.int_base2 0 digits = Some code /\
     (8 <= String.length digits)%nat /\
     ((code < 256)%N -> String.length digits = 8%nat) /\
     ((256 <= code)%N -> (8 < String.length digits)%nat)).
Proof.
  refine (conj (text_to_binary_length text) (conj _ _)).
  - intros i c H. now rewrite text_to_binary_lookup, H.
  - intros code. cbv zeta. split; [apply int_base2_format_08b | apply length_format_08b].
Qed.

(** The second character of "Hi"; the code points U+0069 and U+0130. *)
Lemma X1_text_to_binary_entries_witness :
  TestScript.text_to_binary "Hi" !! 1%nat = Some "i = 01101001" /\
  String.length (TestScript.format_08b 105) = 8%nat /\
  (8 < String.length (TestScript.format_08b 304))%nat.
Proof.
  refine (conj _ (conj _ _)).
  - exact (proj1 (proj2 (X1_text_to_binary_entries "Hi")) 1%nat "i"%char eq_refl).
  - apply (proj2 (proj2 (X1_text_to_binary_entries "Hi")) 105%N). reflexivity.
  - apply (proj2 (proj2 (X1_text_to_binary_entries "Hi")) 304%N). discriminate.
Defined.

(** X2: the text is recovered from the result of [text_to_binary] by reading
    the binary digits of each entry back as a code point. *)
Theorem X2_text_to_binary_round_trip (text : string) :
  TestScript.decode (TestScript.text_to_binary text) = Some text.
Proof.
  induction text as [| c text IH]; [reflexivity |].
  cbn [TestScript.text_to_binary TestScript.decode].
  now rewrite decode_entry_entry, IH.
Qed.

(** X3: with an argument, the test script prints exactly one line, the JSON
    list of the entries of [text_to_binary] for that argument; what follows
    the first argument is ignored. *)
Theorem X3_test_script_output (prog input_text : string) (more : list string) :
  let out := TestScript.main (prog :: input_text :: more) in
  Py.count_lines out = 1%nat /\
  Reader.loads out =
    Some (Py.JArr (List.map Py.JStr (TestScript.text_to_binary input_text))) /\
  out = TestScript.main [prog; input_text].
Proof.
  cbv zeta. cbn [TestScript.main].
  refine (conj _ (conj (loads_print _) eq_refl)).
  unfold Py.print. now rewrite count_lines_app, count_lines_dumps.
Qed.

(** X4: without an argument the test script prints the line [[]], which is
    also what it prints for the empty text: the two cases give the same
    output. *)
Theorem X4_test_script_no_argument (argv : list string) :
  (length argv < 2)%nat ->
  TestScript.main argv = "[]" ++ Py.nl /\
  forall prog more, TestScript.main argv = TestScript.main (prog :: "" :: more).
Proof.
  intros H. destruct argv as [| prog [| input_text more]]; simpl in H; try lia;
    split; reflexivity.
Qed.

Lemma X4_test_script_no_argument_witness :
  TestScript.main ["testScript.py"] = "[]" ++ Py.nl /\
  forall prog more, TestScript.main ["testScript.py"] = TestScript.main (prog :: "" :: more).
Proof. apply (X4_test_script_no_argument ["testScript.py"]). simpl. lia. Defined.

(** X5: what the test script prints is a JSON list, never the envelope of
    nodes and files that the three modules print: the reader of a module's
    output refuses it, whatever the arguments. *)
Theorem X5_test_script_not_an_envelope (argv : list string) :
  Reader.read_output (TestScript.main argv) = None.
Proof.
  assert (E : forall l, Reader.read_output (Py.print (Py.dumps (Py.JArr l))) = None).
  { intros l. unfold Reader.read_output. rewrite loads_print.
    destruct (Py.count_lines _) as [| [| n]]; reflexivity. }
  destruct argv as [| prog [| input_text more]]; cbn [TestScript.main];
    [exact (E []) | exact (E []) | apply E].
Qed.

(** ** hashDetect.py: what the result does not depend on *)

Section NormalizationFacts.
Import Py HashDetect.

Lemma lower_char_idem (c : ascii) : lower_char (lower_char c) = lower_char c.
Proof. destruct c as [[] [] [] [] [] [] [] []]; reflexivity. Qed.

Lemma isspace_lower_char (c : ascii) : isspace (lower_char c) = isspace c.
Proof. destruct c as [[] [] [] [] [] [] [] []]; reflexivity. Qed.

Lemma lower_idem (s : string) : lower (lower s) = lower s.
Proof. induction s as [| c s IH]; simpl; [reflexivity | now rewrite lower_char_idem, IH]. Qed.

Lemma lstrip_lower (s : string) : lstrip (lower s) = lower (lstrip s).
Proof.
  induction s as [| c s IH]; simpl; [reflexivity |].
  rewrite isspace_lower_char. destruct (isspace c); [exact IH | reflexivity].
Qed.

Lemma rstrip_lower (s : string) : rstrip (lower s) = lower (rstrip s).
Proof.
  induction s as [| c s IH]; simpl; [reflexivity |].
  rewrite IH, isspace_lower_char.
  destruct (rstrip s); simpl; [destruct (isspace c) |]; reflexivity.
Qed.

Lemma strip_lower (s : string) : strip (lower s) = lower (strip s).
Proof. unfold strip. now rewrite lstrip_lower, rstrip_lower. Qed.

Lemma lstrip_blank (pre s : string) : Text.blank pre = true -> lstrip (pre ++ s) = lstrip s.
Proof.
  induction pre as [| c pre IH]; simpl; [reflexivity |].
  intros H. apply andb_prop in H as [Hc Hpre]. rewrite Hc. auto.
Qed.

Lemma rstrip_blank_only (post : string) : Text.blank post = true -> rstrip post = "".
Proof.
  induction post as [| c post IH]; simpl; [reflexivity |].
  intros H. apply andb_prop in H as [Hc Hpost]. now rewrite (IH Hpost), Hc.
Qed.

Lemma rstrip_blank (s post : string) : Text.blank post = true -> rstrip (s ++ post) = rstrip s.
Proof.
  intros H. induction s as [| c s IH]; simpl.
  - now apply rstrip_blank_only.
  - now rewrite IH.
Qed.

Lemma lstrip_app (s post : string) :
  lstrip s <> "" -> lstrip (s ++ post) = lstrip s ++ post.
Proof.
  induction s as [| c s IH]; simpl; [congruence |].
  destruct (isspace c); auto.
Qed.

Lemma lstrip_all_blank (s : string) : lstrip s = "" -> Text.blank s = true.
Proof.
  induction s as [| c s IH]; simpl; [reflexivity |].
  destruct (isspace c); [auto | discriminate].
Qed.

Lemma blank_app (a b : string) :
  Text.blank (a ++ b) = Text.blank a && Text.blank b.
Proof.
  induction a as [| c a IH]; simpl; [reflexivity |].
  now rewrite IH, andb_assoc.
Qed.

(** White space around the text is not seen by [strip]. *)
Lemma strip_blank (pre s post : string) :
  Text.blank pre = true -> Text.blank post = true -> strip (pre ++ s ++ post) = strip s.
Proof.
  intros Hpre Hpost. unfold strip. rewrite (lstrip_blank pre _ Hpre).
  destruct (lstrip s) as [| c t] eqn:E.
  - assert (B : Text.blank (s ++ post) = true)
      by (rewrite blank_app, (lstrip_all_blank s E), Hpost; reflexivity).
    assert (L : forall u, Text.blank u = true -> lstrip u = "").
    { induction u as [| x u IHu]; simpl; [reflexivity |].
      intros H. apply andb_prop in H as [Hx Hu]. rewrite Hx. auto. }
    now rewrite (L _ B).
  - rewrite lstrip_app by (rewrite E; discriminate).
    rewrite E. now apply rstrip_blank.
Qed.

(** The script's output is a function of the lower-cased, stripped argument. *)
Lemma main_by_lower_strip (a b : string) :
  lower (strip a) = lower (strip b) -> main a = main b.
Proof.
  intros H. unfold main. rewrite !result_data_nodes. cbv zeta.
  unfold clean_hash. now rewrite H.
Qed.

Lemma length_skip_colon_space (s : string) :
  (String.length (skip_colon_space s) <= String.length s)%nat.
Proof.
  induction s as [| c s IH]; simpl; [lia |].
  destruct (colon_or_space c); simpl; lia.
Qed.

Lemma length_match_literal (lit s rest : string) :
  match_literal lit s = Some rest -> (String.length rest <= String.length s)%nat.
Proof.
  revert s. induction lit as [| a lit IH]; intros s; simpl.
  - intros [= ->]. lia.
  - destruct s as [| b s]; [discriminate |].
    destruct (Ascii.eqb a b); [| discriminate].
    intros H. apply IH in H. simpl. lia.
Qed.

Lemma length_match_alternation (alts : list string) (s rest : string) :
  match_alternation alts s = Some rest -> (String.length rest <= String.length s)%nat.
Proof.
  induction alts as [| lit alts IH]; simpl; [discriminate |].
  destruct (match_literal lit s) eqn:E.
  - intros [= <-]. eapply length_match_literal, E.
  - exact IH.
Qed.

Lemma length_sub_prefix (s : string) :
  (String.length (sub_prefix s) <= String.length s)%nat.
Proof.
  unfold sub_prefix. destruct (match_alternation _ s) as [rest |] eqn:E; [| lia].
  apply length_match_alternation in E. pose proof (length_skip_colon_space rest). lia.
Qed.

Lemma sub_separators_clean (c : ascii) (s : string) :
  has_char c (sub_separators s) = true -> separator c = false.
Proof.
  induction s as [| a s IH]; simpl; [discriminate |].
  destruct (separator a) eqn:E; [exact IH |].
  simpl. destruct (Ascii.eqb_spec a c) as [<- | _]; [intros _; exact E | exact IH].
Qed.

End NormalizationFacts.

(** X6: white space before and after the argument does not change what the
    hash classifier prints. *)
Theorem X6_hash_surrounding_space (pre argv1 post : string) :
  Text.blank pre = true ->
  Text.blank post = true ->
  HashDetect.main (pre ++ argv1 ++ post) = HashDetect.main argv1.
Proof.
  intros Hpre Hpost. unfold HashDetect.main. now rewrite (strip_blank pre argv1 post Hpre Hpost).
Qed.

(** A space before and a tab and a line feed after an MD5 digest. *)
Lemma X6_hash_surrounding_space_witness :
  HashDetect.main (" " ++ "5d41402abc4b2a76b9719d911017c592" ++ String "009" Py.nl) =
  HashDetect.main "5d41402abc4b2a76b9719d911017c592".
Proof.
  apply (X6_hash_surrounding_space " " "5d41402abc4b2a76b9719d911017c592" (String "009" Py.nl));
    reflexivity.
Defined.

(** X7: the hash classifier does not see the case of letters: two arguments
    with the same lower-case form give the same output. *)
Theorem X7_hash_case_insensitive (a b : string) :
  Py.lower a = Py.lower b -> HashDetect.main a = HashDetect.main b.
Proof.
  intros H. apply main_by_lower_strip. now rewrite <- !strip_lower, H.
Qed.

Lemma X7_hash_case_insensitive_witness :
  HashDetect.main "SHA1:AAF4C61DDCC5E8A2DABEDE0F3B482CD9AEA9434D" =
  HashDetect.main "sha1:aaf4c61ddcc5e8a2dabede0f3b482cd9aea9434d".
Proof. apply X7_hash_case_insensitive. reflexivity. Defined.

Section NormalFormFacts.
Import Py HashDetect.

Lemma has_char_sub_separators (c : ascii) (s : string) :
  has_char c (sub_separators s) = true -> has_char c s = true.
Proof.
  induction s as [| a s IH]; simpl; [discriminate |].
  destruct (separator a); simpl.
  - intros H. rewrite (IH H). apply orb_true_r.
  - destruct (Ascii.eqb a c); [reflexivity | exact IH].
Qed.

Lemma has_char_skip_colon_space (c : ascii) (s : string) :
  has_char c (skip_colon_space s) = true -> has_char c s = true.
Proof.
  induction s as [| a s IH]; simpl; [discriminate |].
  destruct (colon_or_space a); simpl; [| auto].
  intros H. rewrite (IH H). apply orb_true_r.
Qed.

Lemma has_char_match_literal (c : ascii) (lit s rest : string) :
  match_literal lit s = Some rest -> has_char c rest = true -> has_char c s = true.
Proof.
  revert s. induction lit as [| a lit IH]; intros s; simpl.
  - now intros [= ->].
  - destruct s as [| b s]; [discriminate |].
    destruct (Ascii.eqb a b); [| discriminate].
    intros E H. simpl. rewrite (IH s E H). apply orb_true_r.
Qed.

Lemma has_char_sub_prefix (c : ascii) (s : string) :
  has_char c (sub_prefix s) = true -> has_char c s = true.
Proof.
  unfold sub_prefix.
  assert (G : forall alts rest, match_alternation alts s = Some rest ->
                                has_char c rest = true -> has_char c s = true).
  { induction alts as [| lit alts IH]; simpl; [discriminate |].
    intros rest. destruct (match_literal lit s) eqn:E.
    - intros [= <-]. eapply has_char_match_literal, E.
    - apply IH. }
  destruct (match_alternation prefix_alternatives s) as [rest |] eqn:E; [| auto].
  intros H. exact (G _ _ E (has_char_skip_colon_space _ _ H)).
Qed.

(** Where the table has an entry, the second Fact names an algorithm. *)
Lemma type_fact_in_table (n : nat) :
  In n table_lengths -> startswith "Most Likely: " (type_fact n) = true.
Proof.
  unfold table_lengths. simpl.
  intros [<-|[<-|[<-|[<-|[<-|[<-|[<-|[<-|[<-|[<-|[<-|[<-|[]]]]]]]]]]]]]; reflexivity.
Qed.

Lemma type_fact_outside_table (n : nat) :
  ~ In n table_lengths -> type_fact n = "Unknown hash type".
Proof.
  intros H. unfold type_fact, possible_types.
  rewrite hash_patterns_other; [reflexivity |].
  intros Hin. apply H. now apply list_elem_of_In.
Qed.

End NormalFormFacts.

(** X8: every character of the normalized form of a hash is a character of
    the lower-cased input and none is a separator (colon, hyphen, underscore,
    white space); the normalized form is never longer than the lower-cased
    input. *)
Theorem X8_normal_form (hash_input : string) :
  (String.length (HashDetect.clean_hash hash_input) <=
   String.length (Py.lower hash_input))%nat /\
  forall c : ascii,
    Py.has_char c (HashDetect.clean_hash hash_input) = true ->
    HashDetect.separator c = false /\ Py.has_char c (Py.lower hash_input) = true.
Proof.
  unfold HashDetect.clean_hash. split.
  - pose proof (length_sub_separators (HashDetect.sub_prefix (Py.lower hash_input))).
    pose proof (length_sub_prefix (Py.lower hash_input)). lia.
  - intros c H. split; [exact (sub_separators_clean c _ H) |].
    now apply has_char_sub_prefix, has_char_sub_separators.
Qed.

(** The letter [a] of the normalized form of "MD5: AB-CD_EF". *)
Lemma X8_normal_form_witness :
  HashDetect.separator "a" = false /\ Py.has_char "a" (Py.lower "MD5: AB-CD_EF") = true.
Proof. apply (proj2 (X8_normal_form "MD5: AB-CD_EF") "a"%char). reflexivity. Defined.

(** X9: the classifier always returns exactly two Facts and no file: the
    Fact of the normalized length, then "Unknown hash type" exactly when the
    length is not a key of the table, and a Fact that starts with
    "Most Likely: " exactly when it is. *)
Theorem X9_classification_total (hash_input : string) :
  let n := String.length (HashDetect.clean_hash hash_input) in
  HashDetect.result_data hash_input =
    {| Py.nodes := [HashDetect.length_fact n; HashDetect.type_fact n]; Py.files := [] |} /\
  (HashDetect.type_fact n = "Unknown hash type" <-> ~ In n HashDetect.table_lengths) /\
  (Py.startswith "Most Likely: " (HashDetect.type_fact n) = true <->
   In n HashDetect.table_lengths).
Proof.
  cbv zeta. split; [apply result_data_nodes |].
  set (n := String.length (HashDetect.clean_hash hash_input)). clearbody n.
  destruct (In_dec Nat.eq_dec n HashDetect.table_lengths) as [Hin | Hout].
  - pose proof (type_fact_in_table n Hin) as H. split; split; try tauto.
    intros E. rewrite E in H. discriminate H.
  - pose proof (type_fact_outside_table n Hout) as H. split; split; try tauto.
    intros E. rewrite H in E. discriminate E.
Qed.

(** ** dnsTransfer.py: the head of the report and the names over time *)

Section ReportFacts.
Import Py.

(** A clock that moves on by a second or more, after the epoch, moves the
    whole-second time stamp on. *)
Lemma int_of_float_step (x y : Q) :
  (0 <= x)%Q -> (x + 1 <= y)%Q -> (int_of_float x < int_of_float y)%Z.
Proof.
  destruct x as [a b], y as [c d]. unfold int_of_float, Qle, Qplus. simpl.
  rewrite Pos.mul_1_r, !Z.mul_1_r, Z.mul_1_l. intros Ha H.
  assert (Hb : (0 < Z.pos b)%Z) by lia. assert (Hd : (0 < Z.pos d)%Z) by lia.
  assert (Hc : (0 <= c)%Z) by nia.
  rewrite !Z.quot_div_nonneg by lia.
  pose proof (Z.mul_div_le a (Z.pos b) Hb) as Hq.
  assert (G : (a / Z.pos b + 1 <= c / Z.pos d)%Z).
  { apply Z.div_le_lower_bound; [exact Hd |]. nia. }
  lia.
Qed.

Lemma dns_name_shape (domain : string) (w : DnsTransfer.world) :
  exists variant,
    List.map name (files (DnsTransfer.result_data domain w)) =
      [variant ++ domain ++ "_" ++ str_int (int_of_float (DnsTransfer.time_time w)) ++ ".txt"].
Proof.
  unfold DnsTransfer.result_data, DnsTransfer.timestamp.
  destruct (DnsTransfer.subprocess_run w) as [e | result]; [| destruct (_ && _)].
  - exists "zone_transfer_error_". reflexivity.
  - exists "zone_transfer_". reflexivity.
  - exists "zone_transfer_failed_". reflexivity.
Qed.

End ReportFacts.

(** X10: whatever the outcome of the command, the content of the
    zone-transfer report starts with the same head (the title with the
    target, a rule of fifty [=], and the command line with the target), and
    the head is followed by a [Results:] line or by a [Status: FAILED] or
    [Status: ERROR] line. *)
Theorem X10_zone_report_head (domain : string) (w : DnsTransfer.world) :
  exists file body,
    Py.files (DnsTransfer.result_data domain w) = [file] /\
    Py.content file =
      ("DNS Zone Transfer Report for " ++ domain ++ Py.nl ++
       Py.repeat_char "=" 50 ++ Py.nl ++ Py.nl ++
       "Command: dig @" ++ domain ++ " AXFR " ++ domain ++ Py.nl ++ Py.nl) ++ body /\
    (Py.startswith ("Results:" ++ Py.nl) body ||
     Py.startswith ("Status: FAILED" ++ Py.nl) body ||
     Py.startswith ("Status: ERROR" ++ Py.nl) body) = true.
Proof.
  unfold DnsTransfer.result_data.
  destruct (DnsTransfer.subprocess_run w) as [e | result]; [| destruct (_ && _)].
  - eexists _, ("Status: ERROR" ++ Py.nl ++ "Error: " ++ e ++ Py.nl).
    refine (conj eq_refl (conj _ eq_refl)). cbn [Py.content].
    unfold DnsTransfer.error_report. repeat rewrite StringFacts.app_assoc. reflexivity.
  - eexists _, ("Results:" ++ Py.nl ++ DnsTransfer.stdout result).
    refine (conj eq_refl (conj _ eq_refl)). cbn [Py.content].
    unfold DnsTransfer.report. repeat rewrite StringFacts.app_assoc. reflexivity.
  - eexists _, ("Status: FAILED" ++ Py.nl ++
                "Return Code: " ++ Py.str_int (DnsTransfer.returncode result) ++ Py.nl ++
                "Error Output: " ++ DnsTransfer.stderr result ++ Py.nl ++
                "Standard Output: " ++ DnsTransfer.stdout result ++ Py.nl).
    refine (conj eq_refl (conj _ eq_refl)). cbn [Py.content].
    unfold DnsTransfer.failure_report. repeat rewrite StringFacts.app_assoc. reflexivity.
Qed.

(** X11: two runs against the same target whose clocks, read after the
    epoch, are a second or more apart never get the same file name, whatever
    the outcomes of the two runs; this holds for the zone-transfer report and
    for the domain report. *)
Theorem X11_names_differ_a_second_apart (domain : string)
    (wz1 wz2 : DnsTransfer.world) (wd1 wd2 : DomainReport.world) :
  ((0 <= DnsTransfer.time_time wz1)%Q ->
   (DnsTransfer.time_time wz1 + 1 <= DnsTransfer.time_time wz2)%Q ->
   List.map Py.name (Py.files (DnsTransfer.result_data domain wz1)) <>
   List.map Py.name (Py.files (DnsTransfer.result_data domain wz2))) /\
  ((0 <= DomainReport.posix (DomainReport.now_named wd1))%Q ->
   (DomainReport.posix (DomainReport.now_named wd1) + 1 <=
    DomainReport.posix (DomainReport.now_named wd2))%Q ->
   List.map Py.name (Py.files (DomainReport.result_data domain wd1)) <>
   List.map Py.name (Py.files (DomainReport.result_data domain wd2))).
Proof.
  split; intros H0 H1 E; pose proof (int_of_float_step _ _ H0 H1) as Hlt.
  - destruct (dns_name_shape domain wz1) as (v1 & E1).
    destruct (dns_name_shape domain wz2) as (v2 & E2).
    rewrite E1, E2 in E. injection E as E. apply name_stamp in E. lia.
  - unfold DomainReport.result_data in E. cbn [Py.files Py.name List.map] in E.
    injection E as E. apply (name_stamp "" "") in E. lia.
Qed.

(** A zone transfer that works at 1700000000.25 and fails one second later;
    a domain report at the same two instants. *)
Lemma X11_names_differ_a_second_apart_witness :
  List.map Py.name (Py.files (DnsTransfer.result_data "example.com" Samples.dig_ok)) <>
  List.map Py.name
    (Py.files (DnsTransfer.result_data "example.com"
                 {| DnsTransfer.subprocess_run := Py.Raised "timed out";
                    DnsTransfer.time_time := 1700000001.25%Q |})) /\
  List.map Py.name (Py.files (DomainReport.result_data "example.com" Samples.unreachable)) <>
  List.map Py.name
    (Py.files (DomainReport.result_data "example.com"
                 {| DomainReport.getpeercert := Py.Raised "timed out";
                    DomainReport.gethostbyname := Py.Returned "93.184.216.34";
                    DomainReport.requests_get := Py.Raised "timed out";
                    DomainReport.now_generated := Samples.clock;
                    DomainReport.now_named :=
                      {| DomainReport.year := 2023; DomainReport.month := 11;
                         DomainReport.day := 14; DomainReport.hour := 22;
                         DomainReport.minute := 13; DomainReport.second := 21;
                         DomainReport.posix := 1700000001.25%Q |} |})).
Proof.
  split.
  - apply (proj1 (X11_names_differ_a_second_apart "example.com" Samples.dig_ok _
                    Samples.unreachable Samples.unreachable)); unfold Qle; simpl; lia.
  - apply (proj2 (X11_names_differ_a_second_apart "example.com" Samples.dig_ok Samples.dig_ok
                    Samples.unreachable _)); unfold Qle; simpl; lia.
Defined.

(** ** What the modules print is printable ASCII *)

Section AsciiFacts.
Import Py.

Lemma printable_app (a b : string) :
  Text.printable_ascii (a ++ b) = Text.printable_ascii a && Text.printable_ascii b.
Proof.
  induction a as [| c a IH]; simpl; [reflexivity |].
  now rewrite IH, andb_assoc.
Qed.

Lemma printable_escape_char (c : ascii) : Text.printable_ascii (escape_char c) = true.
Proof. destruct c as [[] [] [] [] [] [] [] []]; reflexivity. Qed.

Lemma printable_escape (s : string) : Text.printable_ascii (escape s) = true.
Proof.
  induction s as [| c s IH]; simpl; [reflexivity |].
  now rewrite printable_app, printable_escape_char, IH.
Qed.

Lemma printable_dumps_str (s : string) : Text.printable_ascii (dumps_str s) = true.
Proof.
  rewrite <- (StringFacts.app_nil_r (dumps_str s)), dumps_str_app.
  simpl. now rewrite printable_app, printable_escape.
Qed.

Lemma printable_join (parts : list string) :
  Forall (fun p => Text.printable_ascii p = true) parts ->
  Text.printable_ascii (join ", " parts) = true.
Proof.
  induction 1 as [| p parts Hp Hparts IH]; [reflexivity |].
  destruct parts as [| q parts]; [exact Hp |].
  change (join ", " (p :: q :: parts)) with (p ++ ", " ++ join ", " (q :: parts)).
  now rewrite !printable_app, Hp, IH.
Qed.

Lemma printable_dumps (v : json) : Text.printable_ascii (dumps v) = true.
Proof.
  induction v as [s | items IH | members IH] using json_nested_ind.
  - apply printable_dumps_str.
  - change (dumps (JArr items)) with ("[" ++ join ", " (List.map dumps items) ++ "]").
    rewrite !printable_app, printable_join; [reflexivity |].
    induction IH; constructor; auto.
  - change (dumps (JObj members))
      with ("{" ++ join ", " (List.map member_text members) ++ "}").
    rewrite !printable_app, printable_join; [reflexivity |].
    induction IH as [| [k x] members Hx Hmembers IHm]; constructor; auto.
    unfold member_text. cbn [fst snd] in *.
    now rewrite !printable_app, printable_dumps_str, Hx.
Qed.

End AsciiFacts.

(** X12: whatever characters the target, the answers of the probes and the
    output of the command hold, each of the four scripts writes a line of
    printable ASCII characters (U+0020..U+007E) ended by one line feed: line
    feeds, control characters and characters beyond ASCII reach the output
    only as escapes. *)
Theorem X12_output_is_ascii (argv1 domain : string) (argv : list string)
    (wz : DnsTransfer.world) (wd : DomainReport.world) :
  (exists line, HashDetect.main argv1 = Py.print line /\ Text.printable_ascii line = true) /\
  (exists line, DnsTransfer.main domain wz = Py.print line /\
                Text.printable_ascii line = true) /\
  (exists line, DomainReport.main domain wd = Py.print line /\
                Text.printable_ascii line = true) /\
  (exists line, TestScript.main argv = Py.print line /\ Text.printable_ascii line = true).
Proof.
  refine (conj _ (conj _ (conj _ _)));
    try (eexists; split; [reflexivity | apply printable_dumps]).
  destruct argv as [| prog [| input_text more]]; cbn [TestScript.main];
    eexists; split; try reflexivity; apply printable_dumps.
Qed.

(** ** domainreport.py: the report, probe by probe *)

Section SectionFacts.
Import Py DomainReport Report.

Lemma join_empty_cons (p : string) (parts : list string) :
  join "" (p :: parts) = p ++ join "" parts.
Proof.
  destruct parts as [| q parts]; [now rewrite StringFacts.app_nil_r | reflexivity].
Qed.

Lemma header_lines_cons (item : string * string) (items : list (string * string)) :
  header_lines (item :: items) =
    if reported item then header_line item ++ header_lines items else header_lines items.
Proof.
  unfold header_lines. cbn [List.filter].
  destruct (reported item); [| reflexivity].
  cbn [List.map]. apply join_empty_cons.
Qed.

(** The loop over the headers appends the lines of the reported headers. *)
Lemma scan_headers_report (items : list (string * string)) (v : vars) :
  report_content (scan_headers items v) = report_content v ++ header_lines items.
Proof.
  revert v. induction items as [| [header value] items IH]; intros v.
  - unfold header_lines. simpl. now rewrite StringFacts.app_nil_r.
  - rewrite scan_headers_cons, header_lines_cons.
    change (reported (header, value))
      with (existsb (String.eqb (lower header)) reported_headers).
    destruct (existsb _ _); [| apply IH].
    rewrite IH. cbn [report_content]. unfold header_line. cbn [fst snd].
    now rewrite !StringFacts.app_assoc.
Qed.

(** Each probe appends to the report what it writes into an empty one. *)
Lemma ssl_probe_appends (w : world) (v : vars) :
  report_content (ssl_probe w v) = report_content v ++ written (ssl_probe w).
Proof.
  unfold written, ssl_probe. destruct (getpeercert w) as [e | cert]; cbn [report_content];
    repeat rewrite StringFacts.app_assoc; reflexivity.
Qed.

Lemma dns_probe_appends (domain : string) (w : world) (v : vars) :
  report_content (dns_probe domain w v) = report_content v ++ written (dns_probe domain w).
Proof.
  unfold written, dns_probe. destruct (gethostbyname w) as [e | ip]; reflexivity.
Qed.

Lemma http_probe_appends (w : world) (v : vars) :
  report_content (http_probe w v) = report_content v ++ written (http_probe w).
Proof.
  unfold written, http_probe. destruct (requests_get w) as [e | items]; [reflexivity |].
  cbn [report_content]. rewrite !scan_headers_report. cbn [report_content].
  repeat rewrite StringFacts.app_assoc. reflexivity.
Qed.

Lemma written_http_returned (w : world) (items : list (string * string)) :
  requests_get w = Returned items ->
  written (http_probe w) = "HTTP Headers Analysis:" ++ nl ++ header_lines items ++ nl.
Proof.
  intros E. unfold written, http_probe. rewrite E. cbn [report_content].
  rewrite scan_headers_report. cbn [report_content].
  repeat rewrite StringFacts.app_assoc. reflexivity.
Qed.

End SectionFacts.

(** X13: the content of the domain report is the title and the rule, then
    what the SSL inspection writes, then what the DNS resolution writes, then
    what the HTTP header inspection writes, then the line of the generation
    time: one section per probe, in the order the probes run, each section
    being what its probe writes into an empty report (so no probe alters what
    another wrote), and each headed by the name of its probe, on success and
    on failure. *)
Theorem X13_report_sections (domain : string) (w : DomainReport.world) :
  exists file,
    Py.files (DomainReport.result_data domain w) = [file] /\
    Py.content file =
      DomainReport.report_content (DomainReport.initial domain) ++
      Report.written (DomainReport.ssl_probe w) ++
      Report.written (DomainReport.dns_probe domain w) ++
      Report.written (DomainReport.http_probe w) ++
      "Report Generated: " ++ DomainReport.strftime (DomainReport.now_generated w) ++ Py.nl /\
    Py.startswith "SSL Certificate " (Report.written (DomainReport.ssl_probe w)) = true /\
    Py.startswith "DNS Resolution" (Report.written (DomainReport.dns_probe domain w)) = true /\
    Py.startswith "HTTP " (Report.written (DomainReport.http_probe w)) = true.
Proof.
  eexists. split; [reflexivity |]. cbn [Py.content].
  refine (conj _ (conj _ (conj _ _))).
  - unfold DomainReport.run_probes.
    rewrite http_probe_appends, dns_probe_appends, ssl_probe_appends.
    repeat rewrite StringFacts.app_assoc. reflexivity.
  - unfold Report.written, DomainReport.ssl_probe.
    destruct (DomainReport.getpeercert w); reflexivity.
  - unfold Report.written, DomainReport.dns_probe.
    destruct (DomainReport.gethostbyname w); reflexivity.
  - destruct (DomainReport.requests_get w) as [e | items] eqn:E.
    + unfold Report.written, DomainReport.http_probe. rewrite E. reflexivity.
    + rewrite (written_http_returned w items E). reflexivity.
Qed.

(** X14: the loop over the response headers appends to the report one line
    [name: value] for each header whose lower-cased name is [server],
    [x-powered-by], [x-frame-options] or [content-security-policy], in the
    order of the response and with the name as it was sent; a header of any
    other name adds nothing.  The loop touches neither [resolved_ip] nor
    [ssl_issuer]. *)
Theorem X14_header_lines (items : list (string * string)) (v : DomainReport.vars) :
  DomainReport.report_content (DomainReport.scan_headers items v) =
    DomainReport.report_content v ++
    Py.join "" (List.map (fun item => fst item ++ ": " ++ snd item ++ Py.nl)
                  (List.filter
                     (fun item =>
                        existsb (String.eqb (Py.lower (fst item)))
                          ["server"; "x-powered-by"; "x-frame-options";
                           "content-security-policy"])
                     items)) /\
  DomainReport.resolved_ip (DomainReport.scan_headers items v) = DomainReport.resolved_ip v /\
  DomainReport.ssl_issuer (DomainReport.scan_headers items v) = DomainReport.ssl_issuer v.
Proof.
  destruct (scan_headers_vars items v) as (H1 & H2 & _).
  exact (conj (scan_headers_report items v) (conj H1 H2)).
Qed.

Section FindingFacts.
Import Py DomainReport Report.

(** The content of the report, section by section. *)
Lemma content_sections (domain : string) (w : world) :
  report_content (run_probes domain w) =
    report_content (initial domain) ++ written (ssl_probe w) ++
    written (dns_probe domain w) ++ written (http_probe w).
Proof.
  unfold run_probes. rewrite http_probe_appends, dns_probe_appends, ssl_probe_appends.
  now rewrite !StringFacts.app_assoc.
Qed.

Lemma written_ssl_returned (w : world) (cert : gmap string value) :
  getpeercert w = Returned cert ->
  written (ssl_probe w) =
    "SSL Certificate Details:" ++ nl ++
    "Subject: " ++ str (default (Str "N/A") (cert !! "subject")) ++ nl ++
    "Issuer: " ++ str (default (Str "N/A") (cert !! "issuer")) ++ nl ++
    "Valid From: " ++ str (default (Str "N/A") (cert !! "notBefore")) ++ nl ++
    "Valid Until: " ++ str (default (Str "N/A") (cert !! "notAfter")) ++ nl ++ nl.
Proof.
  intros E. unfold written, ssl_probe. rewrite E. cbn [report_content no_findings].
  repeat rewrite StringFacts.app_assoc. reflexivity.
Qed.

(** The nodes, finding by finding. *)
Lemma make_nodes_parts (v : vars) :
  make_nodes v =
    (match resolved_ip v with
     | Some ip => if truthy_str ip then [("IP Address: " ++ ip)%string] else []
     | None => []
     end ++
     match finding (ssl_issuer v) with
     | Some issuer => [("SSL Issuer: " ++ issuer)%string]
     | None => []
     end ++
     match server_header v with
     | Some server => if truthy_str server then [("Web Server: " ++ server)%string] else []
     | None => []
     end)%list.
Proof.
  unfold make_nodes, finding.
  destruct (resolved_ip v) as [ip |]; [destruct (truthy_str ip) |];
    (destruct (ssl_issuer v) as [issuer |]; [destruct (truthy issuer) |]);
    (destruct (server_header v) as [server |]; [destruct (truthy_str server) |]);
    reflexivity.
Qed.

(** The inner loop stops at the first [organizationName] of a relative name. *)
Lemma scan_item_pairs (rdn : list (string * string)) (acc : option value) :
  scan_item (List.map pair_value rdn) acc =
    match first_organization rdn with
    | Some v => Some (Str v)
    | None => acc
    end.
Proof.
  induction rdn as [| [k v] rdn IH]; [reflexivity |].
  cbn [List.map pair_value fst snd scan_item first_organization].
  destruct (String.eqb k "organizationName"); [reflexivity | exact IH].
Qed.

(** The outer loop stops at the first relative name whose first
    [organizationName] is not empty. *)
Lemma scan_issuer_names (rdns : list (list (string * string))) (acc : option value) :
  finding acc = None ->
  finding (scan_issuer (List.map rdn_value rdns) acc) = issuer_organization rdns.
Proof.
  revert acc. induction rdns as [| rdn rdns IH]; intros acc Hacc; [exact Hacc |].
  cbn [List.map issuer_organization].
  destruct rdn as [| kv rdn].
  - cbn [rdn_value List.map scan_issuer first_organization]. now apply IH.
  - change (rdn_value (kv :: rdn)) with (Tuple (pair_value kv :: List.map pair_value rdn)).
    cbn [scan_issuer].
    change (pair_value kv :: List.map pair_value rdn) with (List.map pair_value (kv :: rdn)).
    rewrite scan_item_pairs.
    destruct (first_organization (kv :: rdn)) as [v |].
    + cbn [truthy_opt truthy]. destruct (truthy_str v) eqn:E.
      * cbn [finding truthy str]. now rewrite E.
      * apply IH. cbn [finding truthy]. now rewrite E.
    + assert (T : truthy_opt acc = false).
      { destruct acc as [i |]; [| reflexivity]. cbn [finding] in Hacc. cbn [truthy_opt].
        destruct (truthy i); [discriminate | reflexivity]. }
      rewrite T. now apply IH.
Qed.

Lemma extract_issuer_names (cert : gmap string value) (rdns : list (list (string * string))) :
  cert !! "issuer" = Some (name_value rdns) ->
  finding (extract_issuer cert None) = issuer_organization rdns.
Proof.
  intros E. unfold extract_issuer. rewrite E. unfold name_value.
  destruct rdns as [| rdn rdns]; [reflexivity |].
  cbn [List.map truthy iter]. now apply (scan_issuer_names (rdn :: rdns) None).
Qed.

Lemma last_server_none (items : list (string * string)) :
  (forall h v, In (h, v) items -> lower h <> "server") -> last_server items = None.
Proof.
  induction items as [| [h v] items IH]; intros H; [reflexivity |].
  cbn [last_server]. rewrite IH by (intros h' v' Hin; apply (H h' v'); now right).
  destruct (String.eqb_spec (lower h) "server") as [E | _]; [| reflexivity].
  exfalso. apply (H h v); [now left | exact E].
Qed.

Lemma last_server_app (before after : list (string * string)) (header value : string) :
  lower header = "server" ->
  last_server after = None ->
  last_server (before ++ (header, value) :: after) = Some value.
Proof.
  intros Hh Hafter. induction before as [| [h v] before IH].
  - cbn [app last_server]. now rewrite Hafter, Hh.
  - rewrite <- app_comm_cons. cbn [last_server]. now rewrite IH.
Qed.

End FindingFacts.

(** X15: on a certificate whose issuer is a well-formed name (relative names
    of (name, value) pairs of strings), the nested loops of lines 28-36 find
    the first non-empty value among the first [organizationName] of each
    relative name, and that value is the Fact "SSL Issuer: ..." of the run;
    when there is none, no Fact of the run is an SSL Issuer.  An empty first
    [organizationName] hides the later ones of the same relative name. *)
Theorem X15_issuer_organization (domain : string) (w : DomainReport.world)
    (cert : gmap string Py.value) (rdns : list (list (string * string))) :
  DomainReport.getpeercert w = Py.Returned cert ->
  cert !! "issuer" = Some (Report.name_value rdns) ->
  Report.finding (DomainReport.extract_issuer cert None) = Report.issuer_organization rdns /\
  match Report.issuer_organization rdns with
  | Some organization =>
      In ("SSL Issuer: " ++ organization) (Py.nodes (DomainReport.result_data domain w))
  | None =>
      Forall (fun fact => Py.startswith "SSL Issuer: " fact = false)
        (Py.nodes (DomainReport.result_data domain w))
  end.
Proof.
  intros Hw Hcert. pose proof (extract_issuer_names cert rdns Hcert) as E.
  split; [exact E |].
  unfold DomainReport.result_data. cbv zeta. cbn [Py.nodes].
  rewrite make_nodes_parts.
  destruct (run_probes_vars domain w) as (_ & H2 & _). rewrite H2, Hw, E.
  destruct (Report.issuer_organization rdns) as [organization |].
  - apply in_or_app. right. now left.
  - cbn [app].
    destruct (DomainReport.resolved_ip _) as [ip |]; [destruct (Py.truthy_str ip) |];
      (destruct (DomainReport.server_header _) as [server |];
       [destruct (Py.truthy_str server) |]);
      repeat constructor.
Qed.

(** The certificate of the samples: its issuer has three relative names, the
    second of which holds the organization. *)
Lemma X15_issuer_organization_witness :
  Report.finding (DomainReport.extract_issuer Samples.cert None) = Some "DigiCert Inc" /\
  In "SSL Issuer: DigiCert Inc"
    (Py.nodes (DomainReport.result_data "example.com" Samples.ssl_and_dns)).
Proof.
  exact (X15_issuer_organization "example.com" Samples.ssl_and_dns Samples.cert
           [ [("countryName", "US")]; [("organizationName", "DigiCert Inc")];
             [("commonName", "DigiCert TLS CA")] ]
           eq_refl ltac:(vm_compute; reflexivity)).
Defined.

(** X16: a field that the certificate does not have is reported as [N/A]
    (subject, issuer, start and end of validity), the SSL inspection still
    counting as successful; and without an issuer no Fact of the run is an
    SSL Issuer. *)
Theorem X16_missing_certificate_fields (domain : string) (w : DomainReport.world)
    (cert : gmap string Py.value) :
  DomainReport.getpeercert w = Py.Returned cert ->
  exists file,
    Py.files (DomainReport.result_data domain w) = [file] /\
    Py.contains ("SSL Certificate Details:" ++ Py.nl) (Py.content file) = true /\
    (cert !! "subject" = None ->
     Py.contains ("Subject: N/A" ++ Py.nl) (Py.content file) = true) /\
    (cert !! "issuer" = None ->
     Py.contains ("Issuer: N/A" ++ Py.nl) (Py.content file) = true /\
     Forall (fun fact => Py.startswith "SSL Issuer: " fact = false)
       (Py.nodes (DomainReport.result_data domain w))) /\
    (cert !! "notBefore" = None ->
     Py.contains ("Valid From: N/A" ++ Py.nl) (Py.content file) = true) /\
    (cert !! "notAfter" = None ->
     Py.contains ("Valid Until: N/A" ++ Py.nl) (Py.content file) = true).
Proof.
  intros Hw. eexists. split; [reflexivity |].
  cbn [Py.content]. rewrite content_sections, (written_ssl_returned w cert Hw).
  set (head := DomainReport.report_content (DomainReport.initial domain)).
  set (subject := Py.str (default (Py.Str "N/A") (cert !! "subject"))).
  set (issuer := Py.str (default (Py.Str "N/A") (cert !! "issuer"))).
  set (not_before := Py.str (default (Py.Str "N/A") (cert !! "notBefore"))).
  set (not_after := Py.str (default (Py.Str "N/A") (cert !! "notAfter"))).
  set (dns := Report.written (DomainReport.dns_probe domain w)).
  set (http := Report.written (DomainReport.http_probe w)).
  set (generated := "Report Generated: " ++
                    DomainReport.strftime (DomainReport.now_generated w) ++ Py.nl).
  refine (conj _ (conj _ (conj _ (conj _ _)))).
  - eapply (contains_intro _ _ head). repeat rewrite StringFacts.app_assoc. reflexivity.
  - intros H. subst subject. rewrite H. cbn [default Py.str].
    eapply (contains_intro _ _ (head ++ "SSL Certificate Details:" ++ Py.nl)).
    repeat rewrite StringFacts.app_assoc. reflexivity.
  - intros H. subst issuer. rewrite H. cbn [default Py.str]. split.
    + eapply (contains_intro _ _
                (head ++ "SSL Certificate Details:" ++ Py.nl ++ "Subject: " ++ subject ++ Py.nl)).
      repeat rewrite StringFacts.app_assoc. reflexivity.
    + unfold DomainReport.result_data. cbv zeta. cbn [Py.nodes].
      rewrite make_nodes_parts.
      destruct (run_probes_vars domain w) as (_ & H2 & _). rewrite H2, Hw.
      unfold DomainReport.extract_issuer. rewrite H. cbn [Report.finding app].
      destruct (DomainReport.resolved_ip _) as [ip |]; [destruct (Py.truthy_str ip) |];
        (destruct (DomainReport.server_header _) as [server |];
         [destruct (Py.truthy_str server) |]);
        repeat constructor.
  - intros H. subst not_before. rewrite H. cbn [default Py.str].
    eapply (contains_intro _ _
              (head ++ "SSL Certificate Details:" ++ Py.nl ++ "Subject: " ++ subject ++ Py.nl ++
               "Issuer: " ++ issuer ++ Py.nl)).
    repeat rewrite StringFacts.app_assoc. reflexivity.
  - intros H. subst not_after. rewrite H. cbn [default Py.str].
    eapply (contains_intro _ _
              (head ++ "SSL Certificate Details:" ++ Py.nl ++ "Subject: " ++ subject ++ Py.nl ++
               "Issuer: " ++ issuer ++ Py.nl ++ "Valid From: " ++ not_before ++ Py.nl)).
    repeat rewrite StringFacts.app_assoc. reflexivity.
Qed.

(** A handshake that succeeds with a certificate without any field. *)
Lemma X16_missing_certificate_fields_witness :
  let w := {| DomainReport.getpeercert := Py.Returned ∅;
              DomainReport.gethostbyname := Py.Returned "93.184.216.34";
              DomainReport.requests_get := Py.Raised "Max retries exceeded";
              DomainReport.now_generated := Samples.clock;
              DomainReport.now_named := Samples.clock |} in
  exists file,
    Py.files (DomainReport.result_data "example.com" w) = [file] /\
    Py.contains ("Subject: N/A" ++ Py.nl) (Py.content file) = true /\
    Py.contains ("Issuer: N/A" ++ Py.nl) (Py.content file) = true /\
    Py.contains ("Valid From: N/A" ++ Py.nl) (Py.content file) = true /\
    Py.contains ("Valid Until: N/A" ++ Py.nl) (Py.content file) = true /\
    Py.nodes (DomainReport.result_data "example.com" w) = ["IP Address: 93.184.216.34"].
Proof.
  intros w.
  destruct (X16_missing_certificate_fields "example.com" w ∅ eq_refl)
    as (file & Hfile & _ & Hsubject & Hissuer & Hfrom & Huntil).
  exists file.
  refine (conj Hfile (conj (Hsubject eq_refl) (conj (proj1 (Hissuer eq_refl))
            (conj (Hfrom eq_refl) (conj (Huntil eq_refl) eq_refl))))).
Defined.

(** X17: the Fact "Web Server: ..." carries the value of the last header of
    the response whose name is [Server] in any case of letters, when that
    value is not empty, and it is the last Fact of the run. *)
Theorem X17_last_server_header (domain : string) (w : DomainReport.world)
    (before after : list (string * string)) (header value : string) :
  DomainReport.requests_get w = Py.Returned (before ++ (header, value) :: after)%list ->
  Py.lower header = "server" ->
  (forall h v, In (h, v) after -> Py.lower h <> "server") ->
  value <> "" ->
  exists facts,
    Py.nodes (DomainReport.result_data domain w) = (facts ++ [("Web Server: " ++ value)%string])%list.
Proof.
  intros Hw Hheader Hafter Hvalue.
  unfold DomainReport.result_data. cbv zeta. cbn [Py.nodes]. rewrite make_nodes_parts.
  destruct (run_probes_vars domain w) as (_ & _ & H3).
  rewrite H3, Hw, (last_server_app before after header value Hheader (last_server_none _ Hafter)).
  destruct value as [| c value]; [congruence |]. cbn [Py.truthy_str].
  eexists. rewrite app_assoc. reflexivity.
Qed.

(** Two Server headers, the second in capitals, and another header after. *)
Lemma X17_last_server_header_witness :
  let w := {| DomainReport.getpeercert := Py.Raised "timed out";
              DomainReport.gethostbyname := Py.Raised "timed out";
              DomainReport.requests_get :=
                Py.Returned [("Server", "nginx"); ("SERVER", "cloudflare");
                             ("X-Frame-Options", "DENY")];
              DomainReport.now_generated := Samples.clock;
              DomainReport.now_named := Samples.clock |} in
  exists facts,
    Py.nodes (DomainReport.result_data "example.com" w) =
      (facts ++ ["Web Server: cloudflare"])%list.
Proof.
  intros w.
  apply (X17_last_server_header "example.com" w [("Server", "nginx")]
           [("X-Frame-Options", "DENY")] "SERVER" "cloudflare" eq_refl eq_refl).
  - intros h v [[= <- <-] | []]. discriminate.
  - discriminate.
Defined.
